(** * HuggingFace-to-Gofile transfer script (src/app.py): model and properties

    The script lists the files of a HuggingFace space, downloads each one to a
    temporary directory, uploads it to Gofile, records every successful upload
    in an in-memory ledger that is rewritten to [uploads_info.json], and
    removes the local copy.

    The embedding follows the Python text function by function.

    - Values returned by [response.json()] are terms of [json]; a Python
      [str] is a Rocq [string] (read it as the UTF-8 bytes of the text: the
      suffix test and the search for the last slash act the same on bytes and
      on code points).
    - Python exceptions are results [Raise e]; [try]/[except] is [try_except].
    - The outside world (HTTP replies, file-system faults) is an argument of
      the function that talks to it; the local files and the ledger are the
      [state]; every observable call ([print], [requests.get], [time.sleep],
      ...) is appended to a trace of [event]s.
    - The console is a parameter too ([Stdout]): [print] raises when the
      console cannot write its line. A statement that names no console is
      about the run on the console that writes every line ([reliable]).
    - Asynchronous [KeyboardInterrupt] is only considered in the keep-alive
      loop at the end of [main], where the script expects it. *)

From Stdlib Require Import ZArith QArith Lqa String Ascii List Lia Bool.
From stdpp Require Import base option list strings pretty gmap.

Set Warnings "-register-all".
Local Open Scope string_scope.
Local Open Scope Z_scope.

(** ** Python values *)

(** A Python [float]: not-a-number, an infinity, or a finite value, held as the
    rational it denotes. The script never does arithmetic on floats; it only
    compares them and tests them for truth. *)
Inductive pyfloat :=
| FNan
| FInf (negative : bool)
| FFinite (q : Q).

(** What [json.loads] builds. A [JDict] lists the entries of the [dict] in
    insertion order; lookups take the first entry with the key. *)
Inductive json :=
| JNull
| JBool (b : bool)
| JInt (z : Z)
| JFloat (f : pyfloat)
| JStr (s : string)
| JList (items : list json)
| JDict (entries : list (string * json)).

Inductive exn :=
| RequestException
| HTTPError (status : Z)
| JSONDecodeError
| KeyError (key : string)
| TypeError
| AttributeError
| ValueError
| OSError.

Inductive pyresult (A : Type) :=
| Ok (a : A)
| Raise (e : exn).
Arguments Ok {A} a.
Arguments Raise {A} e.

#[global] Instance pyresult_ret : MRet pyresult := fun A a => Ok a.
#[global] Instance pyresult_bind : MBind pyresult := fun A B f r =>
  match r with
  | Ok a => f a
  | Raise e => Raise e
  end.

Fixpoint assoc (k : string) (d : list (string * json)) : option json :=
  match d with
  | [] => None
  | (k', v) :: d' => if String.eqb k k' then Some v else assoc k d'
  end.

(** [v[k]] for a string key [k]. *)
Definition py_getitem (v : json) (k : string) : pyresult json :=
  match v with
  | JDict d => match assoc k d with
               | Some x => Ok x
               | None => Raise (KeyError k)
               end
  | _ => Raise TypeError
  end.

(** [v.get(k, dflt)]; only a [dict] has the method. *)
Definition py_get (v : json) (k : string) (dflt : json) : pyresult json :=
  match v with
  | JDict d => Ok (default dflt (assoc k d))
  | _ => Raise AttributeError
  end.

(** [bool(v)]. *)
Definition py_truthy (v : json) : bool :=
  match v with
  | JNull => false
  | JBool b => b
  | JInt z => negb (z =? 0)
  | JFloat FNan => true
  | JFloat (FInf _) => true
  | JFloat (FFinite q) => negb (Qeq_bool q 0)
  | JStr s => negb (String.eqb s "")
  | JList l => match l with [] => false | _ => true end
  | JDict d => match d with [] => false | _ => true end
  end.

(** [v == s] for a string literal [s]. *)
Definition py_eq_str (v : json) (s : string) : bool :=
  match v with
  | JStr t => String.eqb t s
  | _ => false
  end.

Fixpoint chars (s : string) : list json :=
  match s with
  | EmptyString => []
  | String c s' => JStr (String c EmptyString) :: chars s'
  end.

(** [iter(v)]: a list yields its items, a dict its keys, a string its
    characters; nothing else is iterable. *)
Definition py_iter (v : json) : pyresult (list json) :=
  match v with
  | JList l => Ok l
  | JDict d => Ok (map (fun kv => JStr (fst kv)) d)
  | JStr s => Ok (chars s)
  | _ => Raise TypeError
  end.

(** [s.endswith(suffix)] on strings. *)
Definition endswith (s suffix : string) : bool :=
  let n := String.length s in
  let k := String.length suffix in
  (k <=? n)%nat && String.eqb (substring (n - k) k s) suffix.

(** *** Ordering: the [>] that [max] uses *)

(** [bool] is a subclass of [int], and [int] and [float] compare by exact
    value. *)
Definition num_of (v : json) : option pyfloat :=
  match v with
  | JBool b => Some (FFinite (if b then 1%Q else 0%Q))
  | JInt z => Some (FFinite (inject_Z z))
  | JFloat f => Some f
  | _ => None
  end.

Definition float_gt (a b : pyfloat) : bool :=
  match a, b with
  | FNan, _ => false
  | _, FNan => false
  | FInf true, _ => false
  | _, FInf false => false
  | FInf false, _ => true
  | _, FInf true => true
  | FFinite p, FFinite q => negb (Qle_bool p q)
  end.

(** Equality as containers test it on their items (identical or [==]). The one
    value not [==] to itself is NaN, and the decoder hands out a single NaN
    object, so two NaN items are identical. *)
Definition float_same (a b : pyfloat) : bool :=
  match a, b with
  | FNan, FNan => true
  | FInf s, FInf t => Bool.eqb s t
  | FFinite p, FFinite q => Qeq_bool p q
  | _, _ => false
  end.

Fixpoint py_same (a b : json) {struct a} : bool :=
  match a, b with
  | JNull, JNull => true
  | JStr s, JStr t => String.eqb s t
  | JList la, JList lb =>
      (fix go (la lb : list json) {struct la} : bool :=
         match la, lb with
         | [], [] => true
         | x :: la', y :: lb' => py_same x y && go la' lb'
         | _, _ => false
         end) la lb
  | JDict da, JDict db =>
      (length da =? length db)%nat &&
      forallb (fun kv => match assoc (fst kv) db with
                         | Some w => py_same (snd kv) w
                         | None => false
                         end) da
  | _, _ =>
      match num_of a, num_of b with
      | Some x, Some y => float_same x y
      | _, _ => false
      end
  end.

(** [a > b]. Numbers compare by value, strings and lists lexicographically;
    every other pairing raises [TypeError]. *)
Fixpoint py_gt (a b : json) {struct a} : pyresult bool :=
  match a, b with
  | JStr s, JStr t => Ok (String.ltb t s)
  | JList la, JList lb =>
      (fix go (la lb : list json) {struct la} : pyresult bool :=
         match la, lb with
         | [], _ => Ok false
         | _ :: _, [] => Ok true
         | x :: la', y :: lb' => if py_same x y then go la' lb' else py_gt x y
         end) la lb
  | _, _ =>
      match num_of a, num_of b with
      | Some x, Some y => Ok (float_gt x y)
      | _, _ => Raise TypeError
      end
  end.

(** [max(items, key=key)]: the keys are computed in order, and an item
    replaces the current best only when its key is strictly greater. *)
Fixpoint max_loop (key : json → pyresult json) (maxitem maxval : json)
    (rest : list json) : pyresult json :=
  match rest with
  | [] => Ok maxitem
  | item :: rest' =>
      val ← key item;
      greater ← py_gt val maxval;
      if (greater : bool) then max_loop key item val rest'
      else max_loop key maxitem maxval rest'
  end.

Definition py_max (key : json → pyresult json) (items : list json) : pyresult json :=
  match items with
  | [] => Raise ValueError
  | first :: rest => val ← key first; max_loop key first val rest
  end.

(** ** Paths ([posixpath]) *)

(** [s.rfind(c)]: the index of the last [c] in [s], or [-1]. *)
Fixpoint rfind (c : ascii) (s : string) : Z :=
  match s with
  | EmptyString => -1
  | String a s' =>
      let r := rfind c s' in
      if 0 <=? r then r + 1 else if Ascii.eqb a c then 0 else -1
  end.

(** [s[i:]] for [0 <= i]. *)
Definition slice_from (i : Z) (s : string) : string :=
  substring (Z.to_nat i) (String.length s - Z.to_nat i) s.

(** [os.path.basename(p)]: what follows the last slash. *)
Definition basename (p : string) : string :=
  slice_from (rfind "/"%char p + 1) p.

(** [os.path.join(a, b)]. *)
Definition path_join (a b : string) : string :=
  if String.prefix "/" b then b
  else if String.eqb a "" || endswith a "/" then a ++ b
  else a ++ "/" ++ b.

(** ** Configuration *)

Definition SOURCE_SPACE : string := "littletest/Why".
Definition TEMP_DOWNLOAD_DIR : string := "./temp_downloads".
Definition TIMEOUT_BETWEEN_UPLOADS : Z := 5.
Definition LEDGER_FILE : string := "uploads_info.json".
Definition FALLBACK_SERVER : json := JStr "store1".
Definition EXCLUDED_SUFFIX : string := ".gitattributes".

(** ** Effects *)

(** One constructor for each [print] of the script, with the values it
    interpolates. *)
Inductive log_line :=
| LogListStatus (status : Z)
| LogListError (e : exn)
| LogDownloaded (local_filename : string)
| LogDownloadError (file_path : string) (e : exn)
| LogUsingServer (server_name : json)
| LogServerFallback
| LogServerError (e : exn)
| LogUploading (server : json)
| LogUploaded (file_path : string)
| LogDownloadPage (download_page : json)
| LogFolderId (folder_id : json)
| LogGuestToken (guest_token : json)
| LogUploadRejected (result : json)
| LogUploadError (file_path : string) (e : exn)
| LogRemoved (local_path : string)
| LogRemoveError (e : exn)
| LogStart
| LogNoFiles
| LogFound (count : nat)
| LogProcessing (index total : nat) (file_path : string)
| LogUploadFailed (file_path : string)
| LogWaiting (seconds : Z)
| LogFileError (file_path : string) (e : exn)
| LogCompleted
| LogUploadCount (count : nat)
| LogLedgerHint
| LogServing
| LogVisit
| LogPressCtrlC
| LogInterrupted.

(** The calls the outside world can observe, in program order. [HttpPost]
    records the server the upload URL [https://{server}.gofile.io/uploadFile]
    is built from, the file name of the multipart field, and the file sent. *)
Inductive event :=
| Printed (line : log_line)
| HttpGet (url : string)
| HttpPost (server : json) (field_name local_path : string)
| Makedirs (path : string)
| FileOpen (path mode : string)
| FileClose (path : string)
| Sleep (seconds : Z)
| ThreadStart.

(** The local files (path to content) and the module-level list
    [successful_uploads]. *)
Record state := State {
  fs : gmap string string;
  successful_uploads : list json;
}.

Record run (A : Type) := Run {
  value : pyresult A;
  final : state;
  trace : list event;
}.
Arguments Run {A} value final trace.
Arguments value {A} r.
Arguments final {A} r.
Arguments trace {A} r.

Definition M (A : Type) : Type := state → run A.

#[global] Instance M_ret : MRet M := fun A a s => Run (Ok a) s [].
#[global] Instance M_bind : MBind M := fun A B f m s =>
  match m s with
  | Run (Ok a) s1 t1 =>
      match f a s1 with
      | Run v s2 t2 => Run v s2 (t1 ++ t2)
      end
  | Run (Raise e) s1 t1 => Run (Raise e) s1 t1
  end.

Definition lift {A} (r : pyresult A) : M A := fun s => Run r s [].
Definition raise {A} (e : exn) : M A := fun s => Run (Raise e) s [].
Definition emit (ev : event) : M unit := fun s => Run (Ok tt) s [ev].

(** The console: [stdout line] is [None] when [print] can write the line, and
    otherwise the exception that [print] raises: [UnicodeEncodeError] (a
    [ValueError]) when the encoding of the console has no code for a
    character of the line, [OSError] when the stream is broken. *)
Class Stdout := stdout : log_line → option exn.

(** [print(line)]; nothing is written when it raises. *)
Definition print `{Stdout} (line : log_line) : M unit := fun s =>
  match stdout line with
  | None => Run (Ok tt) s [Printed line]
  | Some e => Run (Raise e) s []
  end.

Definition get_state : M state := fun s => Run (Ok s) s [].
Definition put_state (s' : state) : M unit := fun _ => Run (Ok tt) s' [].

(** [try: body except C as e: handler e], where [catches] says which
    exceptions are instances of [C]. *)
Definition try_except {A} (catches : exn → bool) (body : M A)
    (handler : exn → M A) : M A := fun s =>
  match body s with
  | Run (Ok a) s1 t1 => Run (Ok a) s1 t1
  | Run (Raise e) s1 t1 =>
      if catches e then
        match handler e s1 with
        | Run v s2 t2 => Run v s2 (t1 ++ t2)
        end
      else Run (Raise e) s1 t1
  end.

(** [try: body finally: cleanup]. *)
Definition try_finally {A} (body : M A) (cleanup : M unit) : M A := fun s =>
  match body s with
  | Run v s1 t1 =>
      match cleanup s1 with
      | Run (Ok _) s2 t2 => Run v s2 (t1 ++ t2)
      | Run (Raise e) s2 t2 => Run (Raise e) s2 (t1 ++ t2)
      end
  end.

(** Runs [body] and hands its outcome back as a value. *)
Definition attempt {A} (body : M A) : M (pyresult A) := fun s =>
  match body s with
  | Run v s1 t1 => Run (Ok v) s1 t1
  end.

(** Every exception of the model is an instance of [Exception]. *)
Definition Exception (e : exn) : bool := true.

(** [isinstance(e, OSError)]; the exceptions of [requests] derive from
    [IOError], which is [OSError]. *)
Definition is_OSError (e : exn) : bool :=
  match e with
  | OSError | RequestException | HTTPError _ | JSONDecodeError => true
  | _ => false
  end.

(** *** HTTP *)

(** A [requests.Response]: the status, the body as [.json()] decodes it
    ([None] when it is not JSON), and the body as [.iter_content()] streams
    it ([body_broken]: the stream fails after the listed chunks). *)
Record response := Response {
  status_code : Z;
  body_json : option json;
  body_chunks : list string;
  body_broken : bool;
}.

(** What the network does with a request: no answer (the call raises), or a
    response. *)
Inductive reply :=
| NoReply
| Reply (r : response).

Definition answer (rp : reply) : M response :=
  match rp with
  | NoReply => raise RequestException
  | Reply r => mret r
  end.

Definition requests_get (url : string) (rp : reply) : M response :=
  emit (HttpGet url);; answer rp.

Definition requests_post (server : json) (field_name local_path : string)
    (rp : reply) : M response :=
  emit (HttpPost server field_name local_path);; answer rp.

(** The statuses [response.raise_for_status()] raises on. *)
Definition http_error (r : response) : bool :=
  (400 <=? status_code r) && (status_code r <? 600).

(** [response.raise_for_status()]. *)
Definition raise_for_status (r : response) : M unit :=
  if http_error r then raise (HTTPError (status_code r)) else mret tt.

(** [response.json()]. *)
Definition response_json (r : response) : M json :=
  match body_json r with
  | Some v => mret v
  | None => raise JSONDecodeError
  end.

(** *** Files *)

(** The operating system may refuse any call ([fails]); besides that, reading
    and removing need the file to be there. A refused call raises [OSError].
    The [ValueError] these calls raise on a path with an embedded NUL is
    outside the model. *)
Definition os_makedirs (path : string) (fails : bool) : M unit :=
  emit (Makedirs path);;
  if fails then raise OSError else mret tt.

Definition set_fs (f : gmap string string → gmap string string) : M unit :=
  s ← get_state;
  put_state (State (f (fs s)) (successful_uploads s)).

(** [open(path, 'w')] or [open(path, 'wb')]: creates or empties the file. *)
Definition open_write (path mode : string) (fails : bool) : M unit :=
  if fails then raise OSError
  else emit (FileOpen path mode);; set_fs (insert path "").

(** [open(path, 'rb')]. *)
Definition open_read (path : string) (fails : bool) : M unit :=
  s ← get_state;
  match fs s !! path with
  | None => raise OSError
  | Some _ => if fails then raise OSError else emit (FileOpen path "rb")
  end.

(** [f.write(data)] on a file opened for writing. *)
Definition file_write (path data : string) : M unit :=
  set_fs (alter (fun old => old ++ data) path).

Definition file_close (path : string) : M unit := emit (FileClose path).

(** [os.remove(path)]. *)
Definition os_remove (path : string) (fails : bool) : M unit :=
  s ← get_state;
  match fs s !! path with
  | None => raise OSError
  | Some _ => if fails then raise OSError else set_fs (delete path)
  end.

Definition time_sleep (seconds : Z) : M unit := emit (Sleep seconds).

(** ** The script *)

Section Script.

(** The console the script writes to. *)
Context `{out : Stdout}.

(** The list comprehension of [get_file_list]: for each [file] in turn,
    [file['rfilename']] is looked up and asked [.endswith(...)], which only a
    string answers. *)
Fixpoint sibling_names (files : list json) : pyresult (list string) :=
  match files with
  | [] => Ok []
  | file :: rest =>
      name ← py_getitem file "rfilename";
      match name with
      | JStr s =>
          names ← sibling_names rest;
          Ok (if endswith s EXCLUDED_SUFFIX then names else s :: names)
      | _ => Raise AttributeError
      end
  end.

(** [[file['rfilename'] for file in data['siblings'] if not ...]]. *)
Definition listing_names (data : json) : pyresult (list string) :=
  siblings ← py_getitem data "siblings";
  files ← py_iter siblings;
  sibling_names files.

Definition get_file_list (space_name : string) (rp : reply) : M (list string) :=
  let url := "https://huggingface.co/api/spaces/" ++ space_name in
  try_except Exception
    (response ← requests_get url rp;
     if status_code response =? 200 then
       data ← response_json response;
       lift (listing_names data)
     else
       print (LogListStatus (status_code response));;
       mret [])
    (fun e => print (LogListError e);; mret []).

(** What the network and the disk do during one [download_file]. *)
Record download_env := DownloadEnv {
  dl_makedirs_fails : bool;
  dl_reply : reply;
  dl_open_fails : bool;
}.

Fixpoint write_chunks (path : string) (chunks : list string) : M unit :=
  match chunks with
  | [] => mret tt
  | chunk :: rest => file_write path chunk;; write_chunks path rest
  end.

Definition download_file (space_name file_path : string) (env : download_env)
    : M (option string) :=
  os_makedirs TEMP_DOWNLOAD_DIR (dl_makedirs_fails env);;
  let download_url :=
    "https://huggingface.co/spaces/" ++ space_name ++ "/resolve/main/"
      ++ file_path ++ "?download=true" in
  try_except Exception
    (response ← requests_get download_url (dl_reply env);
     raise_for_status response;;
     let local_filename := path_join TEMP_DOWNLOAD_DIR (basename file_path) in
     open_write local_filename "wb" (dl_open_fails env);;
     try_finally
       (write_chunks local_filename (body_chunks response);;
        if body_broken response then raise RequestException else mret tt)
       (file_close local_filename);;
     print (LogDownloaded local_filename);;
     mret (Some local_filename))
    (fun e => print (LogDownloadError file_path e);; mret None).

(** The [key] of the [max] in [get_best_server]: [x.get('score', 0)]. *)
Definition score_key (x : json) : pyresult json := py_get x "score" (JInt 0).

(** Lines 86 to 94 of [get_best_server]: the server name the decoded body
    leads to, [None] when the nested [if]s fall through to the fallback. *)
Definition pick_server (result : json) : pyresult (option json) :=
  status ← py_get result "status" JNull;
  if py_eq_str status "ok" then
    data ← py_get result "data" (JDict []);
    servers ← py_get data "servers" (JList []);
    if py_truthy servers then
      items ← py_iter servers;
      best_server ← py_max score_key items;
      server_name ← py_get best_server "name" JNull;
      mret (if py_truthy server_name then Some server_name else None)
    else mret None
  else mret None.

Definition get_best_server (rp : reply) : M json :=
  try_except Exception
    (response ← requests_get "https://api.gofile.io/servers" rp;
     raise_for_status response;;
     result ← response_json response;
     chosen ← lift (pick_server result);
     match chosen with
     | Some server_name => print (LogUsingServer server_name);; mret server_name
     | None => print LogServerFallback;; mret FALLBACK_SERVER
     end)
    (fun e => print (LogServerError e);; mret FALLBACK_SERVER).

(** How writing the ledger file can go wrong: the file cannot be opened, or
    the write stops after [written] characters. *)
Inductive save_fault :=
| SaveOpenFails
| SaveWriteFails (written : nat).

(** What the network and the disk do during one [upload_to_gofile]. *)
Record upload_env := UploadEnv {
  up_servers : reply;
  up_open_fails : bool;
  up_post : reply;
  up_save : option save_fault;
}.

Definition ledger_append (info : json) : M unit :=
  s ← get_state;
  put_state (State (fs s) (successful_uploads s ++ [info])).

Section Serializer.

(** [json.dumps(v, indent=2)], the encoder of Python's standard library. *)
Variable json_dumps : json → string.

(** [with open('uploads_info.json', 'w') as f:
       json.dump(successful_uploads, f, indent=2)]. *)
Definition save_ledger (fault : option save_fault) : M unit :=
  open_write LEDGER_FILE "w"
    (match fault with Some SaveOpenFails => true | _ => false end);;
  try_finally
    (s ← get_state;
     let text := json_dumps (JList (successful_uploads s)) in
     match fault with
     | Some (SaveWriteFails written) =>
         file_write LEDGER_FILE (substring 0 written text);; raise OSError
     | _ => file_write LEDGER_FILE text
     end)
    (file_close LEDGER_FILE).

(** The [try] block of [upload_to_gofile] after the file has been opened. *)
Definition post_and_record (server : json) (local_path file_path : string)
    (env : upload_env) : M bool :=
  print (LogUploading server);;
  response ← requests_post server (basename local_path) local_path (up_post env);
  raise_for_status response;;
  result ← response_json response;
  status ← lift (py_get result "status" JNull);
  if py_eq_str status "ok" then
    data ← lift (py_get result "data" (JDict []));
    folder_id ← lift (py_get data "parentFolder" JNull);
    download_page ← lift (py_get data "downloadPage" (JStr "No disponible"));
    guest_token ← lift (py_get data "guestToken" (JStr "No disponible"));
    let upload_info := JDict [("file", JStr (basename file_path));
                              ("folder_id", folder_id);
                              ("download_page", download_page);
                              ("guest_token", guest_token)] in
    ledger_append upload_info;;
    save_ledger (up_save env);;
    print (LogUploaded file_path);;
    print (LogDownloadPage download_page);;
    print (LogFolderId folder_id);;
    print (LogGuestToken guest_token);;
    mret true
  else
    print (LogUploadRejected result);;
    mret false.

(** The [finally] clause closes the file only when [files] was bound, that is
    when [open] succeeded; an exception of [open] goes to the same handler as
    one of the rest of the block. *)
Definition upload_to_gofile (local_path file_path : string) (env : upload_env)
    : M bool :=
  server ← get_best_server (up_servers env);
  let handler := fun e => print (LogUploadError file_path e);; mret false in
  opened ← attempt (open_read local_path (up_open_fails env));
  match opened with
  | Raise e => handler e
  | Ok _ =>
      try_finally
        (try_except Exception
           (post_and_record server local_path file_path env) handler)
        (file_close local_path)
  end.

Definition cleanup (local_path : string) (remove_fails : bool) : M unit :=
  try_except is_OSError
    (os_remove local_path remove_fails;;
     print (LogRemoved local_path))
    (fun e => print (LogRemoveError e)).

(** What the outside world does during one iteration of the loop of [main]. *)
Record file_env := FileEnv {
  fe_download : download_env;
  fe_upload : upload_env;
  fe_remove_fails : bool;
}.

(** [if local_path:]. *)
Definition path_truthy (local_path : option string) : bool :=
  match local_path with
  | Some p => negb (String.eqb p "")
  | None => false
  end.

(** The body of the [for] loop of [main], inside its [try]. *)
Definition process_file (index total : nat) (file_path : string)
    (env : file_env) : M unit :=
  print (LogProcessing index total file_path);;
  local_path ← download_file SOURCE_SPACE file_path (fe_download env);
  if path_truthy local_path then
    let local_path := default "" local_path in
    uploaded ← upload_to_gofile local_path file_path (fe_upload env);
    (if (uploaded : bool) then cleanup local_path (fe_remove_fails env)
     else print (LogUploadFailed file_path));;
    if (index <? total)%nat then
      print (LogWaiting TIMEOUT_BETWEEN_UPLOADS);;
      time_sleep TIMEOUT_BETWEEN_UPLOADS
    else mret tt
  else mret tt.

(** One pass of the loop: the body under its [try]/[except Exception]. *)
Definition loop_iteration (index total : nat) (file_path : string)
    (env : file_env) : M unit :=
  try_except Exception
    (process_file index total file_path env)
    (fun e => print (LogFileError file_path e)).

(** [for index, file_path in enumerate(file_list, 1)], from [index] on;
    [envs i] is what the world does during iteration [i]. *)
Fixpoint transfer_loop (total index : nat) (files : list string)
    (envs : nat → file_env) : M unit :=
  match files with
  | [] => mret tt
  | file_path :: rest =>
      loop_iteration index total file_path (envs index);;
      transfer_loop total (S index) rest envs
  end.

(** [while True: time.sleep(1)] until Ctrl+C: [ticks] is the number of calls
    of [time.sleep] made before the interrupt arrives. *)
Fixpoint keep_alive (ticks : nat) : M unit :=
  match ticks with
  | O => print LogInterrupted
  | S n => time_sleep 1;; keep_alive n
  end.

(** [main]; the web server started in the background thread only reads the
    ledger and is not part of the model. *)
Definition main (listing : reply) (envs : nat → file_env) (ticks : nat) : M unit :=
  emit ThreadStart;;
  print LogStart;;
  file_list ← get_file_list SOURCE_SPACE listing;
  match file_list with
  | [] => print LogNoFiles
  | _ :: _ =>
      print (LogFound (length file_list));;
      transfer_loop (length file_list) 1 file_list envs;;
      print LogCompleted;;
      s ← get_state;
      print (LogUploadCount (length (successful_uploads s)));;
      print LogLedgerHint;;
      print LogServing;;
      print LogVisit;;
      print LogPressCtrlC;;
      keep_alive ticks
  end.

End Serializer.

End Script.

(** The console that writes every line. A statement that names no console is
    about the run on this one. *)
#[global] Instance reliable : Stdout := fun _ => None.
Arguments reliable _ /.

(** The handlers of the status service, [@app.get("/")] and
    [@app.get("/uploads")]: each returns the object that FastAPI serializes.
    [uvicorn.run] and the thread that runs it are not modelled; a request is
    a call of its handler on the state the script has reached. *)
Definition read_root : M json :=
  mret (JDict [("message", JStr "HuggingFace to Gofile Transfer Service")]).

Definition get_uploads : M json :=
  s ← get_state;
  mret (JDict [("uploads", JList (successful_uploads s))]).

(** * Vocabulary of the statements *)

(** The sibling [entry] carries the file name [name]. *)
Definition named (entry : json) (name : string) : Prop :=
  py_getitem entry "rfilename" = Ok (JStr name).

(** The name ends with the excluded suffix. *)
Definition excluded (name : string) : bool := endswith name EXCLUDED_SUFFIX.


(** The lines [get_file_list] may print. *)
Definition listing_line (ev : event) : bool :=
  match ev with
  | Printed (LogListStatus _) | Printed (LogListError _) => true
  | _ => false
  end.

(** The score a candidate is ranked by: its [score] field, [0] when it has
    none. *)
Definition score_value (x : json) : option pyfloat :=
  match x with
  | JDict d => num_of (default (JInt 0) (assoc "score" d))
  | _ => None
  end.

(** An object whose score is a number that takes part in the order. *)
Definition is_candidate (x : json) : bool :=
  match score_value x with
  | Some FNan => false
  | Some _ => true
  | None => false
  end.

(** [x] has a strictly higher score than [y]. *)
Definition beats (x y : json) : bool :=
  match score_value x, score_value y with
  | Some a, Some b => float_gt a b
  | _, _ => false
  end.

(** [best] is the first candidate of [servers] with the highest score. *)
Definition first_best (servers : list json) (best : json) : Prop :=
  ∃ pre post : list json,
    servers = (pre ++ best :: post)%list ∧
    Forall (λ x, beats best x = true) pre ∧
    Forall (λ x, beats x best = false) post.

(** [x.get('name')]. *)
Definition candidate_name (x : json) : json :=
  match x with
  | JDict d => default JNull (assoc "name" d)
  | _ => JNull
  end.

(** The reply is a server list with status ["ok"] whose [data.servers] is
    the list [servers]. *)
Definition lists_servers (rp : reply) (servers : list json) : Prop :=
  ∃ r result data,
    rp = Reply r ∧
    http_error r = false ∧
    body_json r = Some result ∧
    py_get result "status" JNull = Ok (JStr "ok") ∧
    py_get result "data" (JDict []) = Ok data ∧
    py_get data "servers" (JList []) = Ok (JList servers).


(** The events that belong to one step of the pipeline: everything but the
    line announcing a file and the pause between files. *)
Definition quiet (ev : event) : bool :=
  match ev with
  | Printed (LogProcessing _ _ _) => false
  | Sleep _ => false
  | _ => true
  end.

(** What [get_best_server] returns, read off the reply. *)
Definition selection (rp : reply) : json :=
  match rp with
  | NoReply => FALLBACK_SERVER
  | Reply r =>
      if http_error r then FALLBACK_SERVER
      else match body_json r with
           | None => FALLBACK_SERVER
           | Some result =>
               match pick_server result with
               | Ok (Some server_name) => server_name
               | _ => FALLBACK_SERVER
               end
           end
  end.

Definition is_dict (v : json) : bool :=
  match v with JDict _ => true | _ => false end.






(** [download_file] returns a path: the directory can be made, the request is
    answered without an error status, the file can be opened and the body
    arrives whole. *)
Definition downloads (env : download_env) : bool :=
  negb (dl_makedirs_fails env) &&
  match dl_reply env with
  | NoReply => false
  | Reply r => negb (http_error r) && negb (dl_open_fails env) && negb (body_broken r)
  end.

(** Where [download_file] puts the file. *)
Definition local_filename (file_path : string) : string :=
  path_join TEMP_DOWNLOAD_DIR (basename file_path).

(** The pauses of a trace, in order. *)
Definition sleeps (t : list event) : list Z :=
  omap (λ ev, match ev with Sleep d => Some d | _ => None end) t.

(** The files a trace announces ([Procesando archivo i/n: f]), in order. *)
Definition attempts (t : list event) : list (nat * string) :=
  omap (λ ev, match ev with
              | Printed (LogProcessing i _ f) => Some (i, f)
              | _ => None
              end) t.

(** [enumerate(files, start)]. *)
Fixpoint enumerate (start : nat) (files : list string) : list (nat * string) :=
  match files with
  | [] => []
  | f :: rest => (start, f) :: enumerate (S start) rest
  end.

(** The pause after the file [item] of a list of [total] files. *)
Definition pause (total : nat) (envs : nat → file_env) (item : nat * string)
    : list Z :=
  if downloads (fe_download (envs item.1)) && (item.1 <? total)%nat
  then [TIMEOUT_BETWEEN_UPLOADS] else [].

(** The URL [main] lists the space at. *)
Definition listing_url : string :=
  "https://huggingface.co/api/spaces/" ++ SOURCE_SPACE.

(** The events of a download or an upload: every file and network call but
    the listing request. *)
Definition transfer_event (ev : event) : bool :=
  match ev with
  | HttpPost _ _ _ | Makedirs _ | FileOpen _ _ | FileClose _ => true
  | HttpGet url => negb (String.eqb url listing_url)
  | _ => false
  end.

(** The chunks of a body, end to end. *)
Definition joined (chunks : list string) : string := foldr String.append "" chunks.

(** The URL [download_file] fetches. *)
Definition download_url (space_name file_path : string) : string :=
  "https://huggingface.co/spaces/" ++ space_name ++ "/resolve/main/"
    ++ file_path ++ "?download=true".

(** The uploads a trace sends: the file name of the form field and the local
    file that is sent. *)
Definition posts (t : list event) : list (string * string) :=
  omap (λ ev, match ev with
              | HttpPost _ field_name local_path => Some (field_name, local_path)
              | _ => None
              end) t.

(** The files a trace reports as uploaded ([Archivo subido correctamente]). *)
Definition reported (t : list event) : list string :=
  omap (λ ev, match ev with
              | Printed (LogUploaded file_path) => Some file_path
              | _ => None
              end) t.

(** The numbers of uploads a trace announces ([Se subieron n archivos]). *)
Definition counts (t : list event) : list nat :=
  omap (λ ev, match ev with
              | Printed (LogUploadCount n) => Some n
              | _ => None
              end) t.

(** The files a trace leaves open, innermost first, when it starts with the
    files [opened]; [None] when it closes a file that is not the innermost
    open one. *)
Fixpoint open_files (t : list event) (opened : list string) : option (list string) :=
  match t with
  | [] => Some opened
  | FileOpen path _ :: t' => open_files t' (path :: opened)
  | FileClose path :: t' =>
      match opened with
      | top :: below =>
          if String.eqb top path then open_files t' below else None
      | [] => None
      end
  | _ :: t' => open_files t' opened
  end.

(** The record of an upload, from the [data] object of the response. *)
Definition upload_info (file_path : string) (d : list (string * json)) : json :=
  JDict [("file", JStr (basename file_path));
         ("folder_id", default JNull (assoc "parentFolder" d));
         ("download_page", default (JStr "No disponible") (assoc "downloadPage" d));
         ("guest_token", default (JStr "No disponible") (assoc "guestToken" d))].

(** The ledger file holds the serialized ledger. *)
Definition in_sync (json_dumps : json → string) (s : state) : Prop :=
  fs s !! LEDGER_FILE = Some (json_dumps (JList (successful_uploads s))).

(** The lines that report a finished upload (lines 154 to 157). *)
Definition report_line (line : log_line) : bool :=
  match line with
  | LogUploaded _ | LogDownloadPage _ | LogFolderId _ | LogGuestToken _ => true
  | _ => false
  end.

(** ** Sample inputs *)

(** The theorems hold for every encoder. The examples run with this one, a
    compact rendering without the indentation, the escapes and the float
    formatting of Python's. *)
Fixpoint sample_dumps (v : json) : string :=
  match v with
  | JNull => "null"
  | JBool b => if b then "true" else "false"
  | JInt z => pretty z
  | JFloat _ => "<float>"
  | JStr s => "'" ++ s ++ "'"
  | JList l => "[" ++ String.concat ", " (map sample_dumps l) ++ "]"
  | JDict d =>
      "{" ++ String.concat ", "
               (map (λ kv, "'" ++ fst kv ++ "': " ++ sample_dumps (snd kv)) d)
          ++ "}"
  end.

Definition s0 : state := State ∅ [].

Definition json_reply (status : Z) (body : json) : reply :=
  Reply (Response status (Some body) [] false).

Definition sibling (name : string) : json := JDict [("rfilename", JStr name)].

Definition listing_of (names : list string) : json :=
  JDict [("siblings", JList (map sibling names))].

Definition server (name : string) (score : Z) : json :=
  JDict [("name", JStr name); ("score", JInt score)].


Definition servers_body (servers : json) : json :=
  JDict [("status", JStr "ok"); ("data", JDict [("servers", servers)])].

Definition servers_reply (servers : list json) : reply :=
  json_reply 200 (servers_body (JList servers)).

(** The upload response of the specification's end-to-end scenario. *)
Definition upload_ok : json :=
  JDict [("status", JStr "ok");
         ("data", JDict [("parentFolder", JStr "f1");
                         ("downloadPage", JStr "http://x/d1");
                         ("guestToken", JStr "t1")])].

(** A world in which everything works: two servers to choose from, a body of
    two chunks, an accepted upload. *)
Definition good_download : download_env :=
  DownloadEnv false (Reply (Response 200 None ["he"; "llo"] false)) false.

Definition good_upload : upload_env :=
  UploadEnv (servers_reply [server "a" 5; server "b" 9]) false
    (json_reply 200 upload_ok) None.

Definition good_file : file_env := FileEnv good_download good_upload false.

(** The upload is refused by the service. *)
Definition refused_file : file_env :=
  FileEnv good_download
    (UploadEnv (servers_reply []) false
       (json_reply 200 (JDict [("status", JStr "error")])) None)
    false.

(** The temporary directory cannot be created. *)
Definition broken_file : file_env :=
  FileEnv (DownloadEnv true NoReply false) good_upload false.

(** The local copy of [a.txt] is on disk. *)
Definition disk_with_copy : state :=
  State {["./temp_downloads/a.txt" := "hello"]} [].

(** A console that cannot write the lines [blocked] picks out: on these
    [print] raises [UnicodeEncodeError], a [ValueError]. *)
Definition console (blocked : log_line → bool) : Stdout :=
  fun line => if blocked line then Some ValueError else None.

(** The lines of the loop that show the remote file name [name]. *)
Definition shows_file (name : string) (line : log_line) : bool :=
  match line with
  | LogProcessing _ _ f | LogFileError f _ | LogDownloadError f _
  | LogUploaded f | LogUploadFailed f | LogUploadError f _ => String.eqb f name
  | _ => false
  end.

(** The line that announces the server [name]. *)
Definition shows_server (name : string) (line : log_line) : bool :=
  match line with
  | LogUsingServer (JStr n) => String.eqb n name
  | _ => false
  end.

(** The line that shows the download page of an upload. *)
Definition shows_page (line : log_line) : bool :=
  match line with
  | LogDownloadPage _ => true
  | _ => false
  end.

(** The line that announces a downloaded file. *)
Definition shows_download (line : log_line) : bool :=
  match line with
  | LogDownloaded _ => true
  | _ => false
  end.

(** * Properties *)

(** ** Symbolic execution of the effect layer *)

Ltac unfold_monad :=
  unfold try_except, try_finally, attempt, requests_get, requests_post, answer,
    raise_for_status, response_json, os_makedirs, open_write, open_read,
    file_write, file_close, os_remove, time_sleep, set_fs, ledger_append,
    print, stdout, emit, lift, raise, get_state, put_state, Exception,
    mbind, M_bind, mret, M_ret in *;
  cbn [reliable] in *.

(** Splits on the innermost [match] or [if] whose scrutinee is stuck. *)
Ltac split_scrutinee :=
  match goal with
  | |- context [match ?x with _ => _ end] =>
      lazymatch x with
      | context [match _ with _ => _ end] => fail
      | _ => destruct x eqn:?
      end
  end.

(** ** Strings *)

Lemma substring_all (s : string) : substring 0 (String.length s) s = s.
Proof. induction s as [|a s IH]; simpl; [done | by rewrite IH]. Qed.

Lemma substring_skip (p s : string) (k : nat) :
  substring (String.length p) k (p ++ s) = substring 0 k s.
Proof. induction p as [|a p IH]; simpl; [done | apply IH]. Qed.

Lemma substring_split (s : string) (m : nat) :
  (m ≤ String.length s)%nat →
  s = substring 0 m s ++ substring m (String.length s - m) s.
Proof.
  revert m. induction s as [|a s IH]; intros [|m] Hm; simpl in *; try lia.
  - done.
  - by rewrite substring_all.
  - change (String a s = String a (substring 0 m s ++
                              substring m (String.length s - m) s)).
    f_equal. apply IH. lia.
Qed.

Lemma length_app_string (p s : string) :
  String.length (p ++ s) = (String.length p + String.length s)%nat.
Proof. induction p as [|a p IH]; simpl; [done | by rewrite IH]. Qed.

(** [endswith] is the suffix relation. *)
Lemma endswith_spec (s suffix : string) :
  endswith s suffix = true ↔ ∃ p, s = p ++ suffix.
Proof.
  unfold endswith. rewrite andb_true_iff, Nat.leb_le, String.eqb_eq. split.
  - intros [Hle Hsub].
    exists (substring 0 (String.length s - String.length suffix) s).
    pose proof (substring_split s (String.length s - String.length suffix)
                  ltac:(lia)) as Hs.
    replace (String.length s - (String.length s - String.length suffix))%nat
      with (String.length suffix) in Hs by lia.
    by rewrite Hsub in Hs.
  - intros [p ->]. rewrite length_app_string. split; [lia |].
    replace (String.length p + String.length suffix - String.length suffix)%nat
      with (String.length p) by lia.
    rewrite substring_skip. apply substring_all.
Qed.

(** ** Remote Lister *)

Lemma sibling_names_filter entries names :
  Forall2 named entries names →
  sibling_names entries = Ok (List.filter (λ n, negb (excluded n)) names).
Proof.
  induction 1 as [|e n entries names Hn _ IH]; [done |].
  cbn [sibling_names]. rewrite Hn. cbn. rewrite IH. cbn.
  unfold excluded. by destruct (endswith n EXCLUDED_SUFFIX).
Qed.

Lemma filter_partition_length {A} (p : A → bool) (l : list A) :
  length (List.filter (λ x, negb (p x)) l) =
  (length l - length (List.filter p l))%nat.
Proof.
  induction l as [|x l IH]; [done |]. simpl.
  pose proof (List.filter_length_le p l).
  destruct (p x); simpl; lia.
Qed.

(** The whole run of [get_file_list]: one request, at most one line of log,
    no exception, the state untouched. *)
Lemma get_file_list_run sp rp s :
  ∃ names log,
    get_file_list sp rp s =
      Run (Ok names) s (HttpGet ("https://huggingface.co/api/spaces/" ++ sp) :: log)
    ∧ Forall (λ ev, listing_line ev = true) log.
Proof.
  unfold get_file_list. unfold_monad. cbn.
  destruct rp as [|r]; cbn; [eauto 6 |].
  destruct (status_code r =? 200); cbn; [| eauto 6].
  destruct (body_json r) as [data|]; cbn; [| eauto 6].
  destruct (listing_names data); cbn; eauto 6.
Qed.

Lemma get_file_list_200 sp r data s :
  status_code r = 200 → body_json r = Some data →
  value (get_file_list sp (Reply r) s) =
    Ok (match listing_names data with Ok names => names | Raise _ => [] end).
Proof.
  intros Hst Hbody. unfold get_file_list. unfold_monad. cbn.
  rewrite Hst, Hbody. cbn. by destruct (listing_names data).
Qed.

(** C3. A 200 listing whose [siblings] are N entries with names, M of them
    ending with [.gitattributes], yields exactly the other N - M names, in the
    order of the response. *)
Theorem get_file_list_filters sp r data entries names s :
  status_code r = 200 →
  body_json r = Some data →
  py_getitem data "siblings" = Ok (JList entries) →
  Forall2 named entries names →
  let kept := List.filter (λ n, negb (excluded n)) names in
  value (get_file_list sp (Reply r) s) = Ok kept ∧
  length kept = (length entries - length (List.filter excluded names))%nat.
Proof.
  intros Hst Hbody Hsib Hnames kept. split.
  - rewrite (get_file_list_200 sp r data s Hst Hbody).
    unfold listing_names. rewrite Hsib. cbn.
    by rewrite (sibling_names_filter entries names Hnames).
  - rewrite (Forall2_length _ _ _ Hnames). apply filter_partition_length.
Qed.

Lemma get_file_list_filters_witness :
  value (get_file_list "owner/name"
           (json_reply 200 (listing_of ["a.txt"; "b.txt"; ".gitattributes"])) s0)
    = Ok ["a.txt"; "b.txt"]
  ∧ length ["a.txt"; "b.txt"] = (3 - 1)%nat.
Proof.
  refine (get_file_list_filters "owner/name" _
            (listing_of ["a.txt"; "b.txt"; ".gitattributes"])
            [sibling "a.txt"; sibling "b.txt"; sibling ".gitattributes"]
            ["a.txt"; "b.txt"; ".gitattributes"] s0 _ _ _ _).
  - reflexivity.
  - reflexivity.
  - reflexivity.
  - repeat constructor.
Defined.



(** ** Server Selector *)

Lemma float_gt_trans a b c :
  float_gt a b = true → float_gt b c = true → float_gt a c = true.
Proof.
  destruct a as [|[]|p], b as [|[]|q], c as [|[]|r]; cbn; try done.
  rewrite !negb_true_iff. intros H1 H2.
  destruct (Qle_bool p r) eqn:E; [| done].
  apply Qle_bool_iff in E.
  assert (¬ (p <= q)%Q) by (rewrite <- Qle_bool_iff; congruence).
  assert (¬ (q <= r)%Q) by (rewrite <- Qle_bool_iff; congruence).
  lra.
Qed.

Lemma float_gt_between a b c :
  b ≠ FNan → float_gt a c = true → float_gt b c = false →
  float_gt a b = true.
Proof.
  destruct a as [|[]|p], b as [|[]|q], c as [|[]|r]; cbn; try done.
  rewrite !negb_true_iff, negb_false_iff. intros _ H1 H2.
  apply Qle_bool_iff in H2.
  destruct (Qle_bool p q) eqn:E; [| done].
  apply Qle_bool_iff in E.
  assert (¬ (p <= r)%Q) by (rewrite <- Qle_bool_iff; congruence).
  lra.
Qed.

Lemma float_gt_irrefl a : float_gt a a = false.
Proof.
  destruct a as [|[]|p]; cbn; try done.
  apply negb_false_iff, Qle_bool_iff. lra.
Qed.

Lemma float_gt_asym a b : float_gt a b = true → float_gt b a = false.
Proof.
  intros H. destruct (float_gt b a) eqn:E; [| done].
  pose proof (float_gt_trans _ _ _ H E) as H'.
  by rewrite float_gt_irrefl in H'.
Qed.

Lemma py_gt_numbers a b x y :
  num_of a = Some x → num_of b = Some y → py_gt a b = Ok (float_gt x y).
Proof. destruct a, b; cbn; try done; by intros [= <-] [= <-]. Qed.

Lemma score_key_candidate x :
  is_candidate x = true →
  ∃ v a, score_key x = Ok v ∧ num_of v = Some a ∧ score_value x = Some a ∧ a ≠ FNan.
Proof.
  unfold is_candidate, score_key, score_value. destruct x; cbn; try done.
  destruct (num_of _) as [a|] eqn:E; [| done].
  intros H. exists (default (JInt 0) (assoc "score" entries)), a.
  repeat split; try done. by intros ->.
Qed.

Lemma py_gt_candidates x y vx vy :
  is_candidate x = true → is_candidate y = true →
  score_key x = Ok vx → score_key y = Ok vy →
  py_gt vx vy = Ok (beats x y).
Proof.
  intros (v & a & Hv & Ha & Hsa & _)%score_key_candidate
         (w & b & Hw & Hb & Hsb & _)%score_key_candidate Hx Hy.
  rewrite Hv in Hx. rewrite Hw in Hy. injection Hx as <-. injection Hy as <-.
  unfold beats. rewrite Hsa, Hsb. by apply py_gt_numbers.
Qed.

Lemma beats_trans x y z :
  beats x y = true → beats y z = true → beats x z = true.
Proof.
  unfold beats.
  destruct (score_value x), (score_value y), (score_value z); try done.
  apply float_gt_trans.
Qed.

Lemma beats_between x y z :
  is_candidate y = true → beats x z = true → beats y z = false →
  beats x y = true.
Proof.
  unfold beats, is_candidate.
  destruct (score_value x), (score_value y) as [b|], (score_value z); try done.
  intros Hb. apply float_gt_between. by intros ->.
Qed.

Lemma beats_asym x y : beats x y = true → beats y x = false.
Proof.
  unfold beats. destruct (score_value x), (score_value y); try done.
  apply float_gt_asym.
Qed.

Lemma max_loop_first_best (rest : list json) : ∀ m vm,
  score_key m = Ok vm → is_candidate m = true →
  forallb is_candidate rest = true →
  ∃ best, max_loop score_key m vm rest = Ok best ∧
    ((best = m ∧ Forall (λ x, beats x m = false) rest) ∨
     (∃ pre post : list json,
        rest = (pre ++ best :: post)%list ∧ beats best m = true ∧
        Forall (λ x, beats best x = true) pre ∧
        Forall (λ x, beats x best = false) post)).
Proof.
  induction rest as [|x rest IH]; intros m vm Hm Hcm Hall.
  - exists m. split; [done |]. left. by split.
  - cbn in Hall. apply andb_true_iff in Hall as [Hcx Hall].
    destruct (score_key_candidate x Hcx) as (vx & _ & Hx & _).
    cbn [max_loop]. rewrite Hx. cbn.
    rewrite (py_gt_candidates x m vx vm Hcx Hcm Hx Hm). cbn.
    destruct (beats x m) eqn:Hxm.
    + destruct (IH x vx Hx Hcx Hall) as (best & Hrun & Hbest).
      exists best. split; [done |]. right.
      destruct Hbest as [[-> Hrest] | (pre & post & -> & Hbx & Hpre & Hpost)].
      * exists [], rest. by repeat split.
      * exists (x :: pre), post. repeat split; try done.
        -- by apply beats_trans with x.
        -- by constructor.
    + destruct (IH m vm Hm Hcm Hall) as (best & Hrun & Hbest).
      exists best. split; [done |].
      destruct Hbest as [[-> Hrest] | (pre & post & -> & Hbm & Hpre & Hpost)].
      * left. split; [done |]. by constructor.
      * right. exists (x :: pre), post. repeat split; try done.
        constructor; [| done]. by apply beats_between with m.
Qed.

Lemma py_max_first_best servers :
  servers ≠ [] → forallb is_candidate servers = true →
  ∃ best, py_max score_key servers = Ok best ∧ first_best servers best.
Proof.
  destruct servers as [|m rest]; [done |]. intros _ Hall.
  cbn in Hall. apply andb_true_iff in Hall as [Hcm Hall].
  destruct (score_key_candidate m Hcm) as (vm & _ & Hm & _).
  destruct (max_loop_first_best rest m vm Hm Hcm Hall) as (best & Hrun & Hbest).
  exists best. cbn [py_max]. rewrite Hm. cbn. split; [done |].
  destruct Hbest as [[-> Hrest] | (pre & post & -> & Hbm & Hpre & Hpost)].
  - exists [], rest. by repeat split.
  - exists (m :: pre), post. repeat split; try done. by constructor.
Qed.

Lemma first_best_unique servers b1 b2 :
  first_best servers b1 → first_best servers b2 → b1 = b2.
Proof.
  intros (pre1 & post1 & -> & Hpre1 & Hpost1) (pre2 & post2 & Heq & Hpre2 & Hpost2).
  apply app_eq_app in Heq as [mid [[-> Hmid] | [-> Hmid]]].
  - destruct mid as [|x mid]; cbn in Hmid.
    + by injection Hmid.
    + injection Hmid as <- ->.
      apply Forall_app in Hpre1 as [_ Hin]. apply Forall_cons in Hin as [Hin _].
      apply Forall_app in Hpost2 as [_ Hout].
      apply Forall_cons in Hout as [Hout _]. congruence.
  - destruct mid as [|x mid]; cbn in Hmid.
    + by injection Hmid.
    + injection Hmid as <- ->.
      apply Forall_app in Hpre2 as [_ Hin]. apply Forall_cons in Hin as [Hin _].
      apply Forall_app in Hpost1 as [_ Hout].
      apply Forall_cons in Hout as [Hout _]. congruence.
Qed.

Lemma get_best_server_run rp s :
  ∃ line, get_best_server rp s =
            Run (Ok (selection rp)) s
              [HttpGet "https://api.gofile.io/servers"; Printed line]
          ∧ quiet (Printed line) = true.
Proof.
  unfold get_best_server, selection. unfold_monad. cbn.
  destruct rp as [|r]; cbn; [eauto |].
  destruct (http_error r); cbn; [eauto |].
  destruct (body_json r) as [result|]; cbn; [| eauto].
  destruct (pick_server result) as [[name|]|e]; cbn; eauto.
Qed.


Lemma max_loop_key_ok key (rest : list json) : ∀ m vm best,
  max_loop key m vm rest = Ok best →
  best = m ∨ ∃ v, key best = Ok v.
Proof.
  induction rest as [|x rest IH]; intros m vm best; cbn [max_loop].
  - intros [= ->]. by left.
  - destruct (key x) as [vx|] eqn:Hx; cbn; [| done].
    destruct (py_gt vx vm) as [[]|]; cbn; [| | done].
    + intros [-> | ?]%IH; eauto.
    + apply IH.
Qed.

Lemma py_max_key_ok key items best :
  py_max key items = Ok best → ∃ v, key best = Ok v.
Proof.
  destruct items as [|m rest]; [done |]. cbn [py_max].
  destruct (key m) as [vm|] eqn:Hm; cbn; [| done].
  intros [-> | ?]%max_loop_key_ok; eauto.
Qed.

Lemma pick_server_selected result data servers best :
  py_get result "status" JNull = Ok (JStr "ok") →
  py_get result "data" (JDict []) = Ok data →
  py_get data "servers" (JList []) = Ok (JList servers) →
  py_max score_key servers = Ok best →
  pick_server result =
    Ok (if py_truthy (candidate_name best) then Some (candidate_name best)
        else None).
Proof.
  intros Hstatus Hdata Hservers Hmax.
  assert (py_truthy (JList servers) = true) as Htruthy by (by destruct servers).
  unfold pick_server. rewrite Hstatus. cbn -[py_truthy py_max].
  rewrite Hdata. cbn -[py_truthy py_max]. rewrite Hservers.
  cbn -[py_truthy py_max]. rewrite Htruthy, Hmax. cbn -[py_truthy].
  clear Htruthy. apply py_max_key_ok in Hmax as [v Hv].
  by destruct best.
Qed.


Lemma servers_reply_lists servers : lists_servers (servers_reply servers) servers.
Proof. by eexists _, _, _. Qed.

(** On integer scores [beats] is the order of the integers. *)
Lemma beats_servers n a m b : beats (server n a) (server m b) = (b <? a).
Proof.
  unfold beats. cbn. unfold Qle_bool. cbn.
  by rewrite !Z.mul_1_r, Z.ltb_antisym.
Qed.

Lemma beats_irrefl x : beats x x = false.
Proof.
  unfold beats. destruct (score_value x); [apply float_gt_irrefl | done].
Qed.

(** No candidate has a higher score than the first best. *)
Lemma first_best_highest servers best :
  first_best servers best → Forall (λ x, beats x best = false) servers.
Proof.
  intros (pre & post & -> & Hpre & Hpost).
  apply Forall_app. split.
  - eapply Forall_impl; [exact Hpre |]. intros x Hx. by apply beats_asym.
  - constructor; [apply beats_irrefl | done].
Qed.


















(** ** Paths *)

Lemma rfind_ge c s : -1 ≤ rfind c s.
Proof.
  induction s as [|a s IH]; cbn; [lia |].
  destruct (0 <=? rfind c s) eqn:E; [lia |]. destruct (Ascii.eqb a c); lia.
Qed.

Lemma slice_from_0 s : slice_from 0 s = s.
Proof.
  unfold slice_from. cbn. rewrite Nat.sub_0_r. apply substring_all.
Qed.

Lemma slice_from_succ i a s :
  0 ≤ i → slice_from (i + 1) (String a s) = slice_from i s.
Proof.
  intros Hi. unfold slice_from.
  replace (Z.to_nat (i + 1)) with (S (Z.to_nat i)) by lia. done.
Qed.

Lemma basename_cons a s :
  basename (String a s) =
    if 0 <=? rfind "/"%char s then basename s
    else if Ascii.eqb a "/"%char then s else String a s.
Proof.
  unfold basename. cbn [rfind].
  destruct (0 <=? rfind "/"%char s) eqn:E.
  - apply Z.leb_le in E. apply slice_from_succ. lia.
  - destruct (Ascii.eqb a "/"%char).
    + rewrite (slice_from_succ 0 a s) by lia. apply slice_from_0.
    + apply slice_from_0.
Qed.

(** A name without a slash is its own base name. *)
Lemma basename_flat p : rfind "/"%char p = -1 → basename p = p.
Proof. intros H. unfold basename. rewrite H. apply slice_from_0. Qed.

(** A base name has no slash. *)
Lemma rfind_basename p : rfind "/"%char (basename p) = -1.
Proof.
  induction p as [|a p IH]; [done |]. rewrite basename_cons.
  destruct (0 <=? rfind "/"%char p) eqn:E; [done |].
  apply Z.leb_gt in E. pose proof (rfind_ge "/"%char p).
  destruct (Ascii.eqb a "/"%char) eqn:Ea; [lia |].
  cbn [rfind]. apply Z.leb_gt in E. by rewrite E, Ea.
Qed.

Lemma local_filename_eq file_path :
  path_join TEMP_DOWNLOAD_DIR (basename file_path) =
  "./temp_downloads/" ++ basename file_path.
Proof.
  unfold path_join. pose proof (rfind_basename file_path) as H.
  destruct (basename file_path) as [|a b]; [done |].
  cbn [String.prefix]. cbn [rfind] in H.
  destruct (Ascii.eqb a "/"%char) eqn:Ea.
  - destruct (0 <=? rfind "/"%char b) eqn:E; [apply Z.leb_le in E; lia | lia].
  - apply Ascii.eqb_neq in Ea.
    destruct (ascii_dec "/"%char a) as [<- | _]; done.
Qed.

(** ** Uploader *)

Section Upload.
Context (json_dumps : json → string).

Lemma post_and_record_true server local_path file_path env s :
  value (post_and_record json_dumps server local_path file_path env s) = Ok true →
  ∃ r result info,
    up_post env = Reply r ∧ body_json r = Some result ∧
    py_get result "status" JNull = Ok (JStr "ok") ∧
    py_getitem info "file" = Ok (JStr (basename file_path)) ∧
    successful_uploads (final (post_and_record json_dumps server local_path file_path env s))
      = (successful_uploads s ++ [info])%list ∧
    fs (final (post_and_record json_dumps server local_path file_path env s)) !! LEDGER_FILE
      = Some (json_dumps (JList (successful_uploads s ++ [info]))).
Proof.
  unfold post_and_record, save_ledger. unfold_monad. cbn.
  destruct (up_post env) as [|r] eqn:Hpost; cbn; [done |].
  destruct (http_error r); cbn; [done |].
  destruct (body_json r) as [result|] eqn:Hbody; cbn; [| done].
  destruct (py_get result "status" JNull) as [status|] eqn:Hstatus; cbn; [| done].
  destruct (py_eq_str status "ok") eqn:Hok; cbn; [| done].
  destruct (py_get result "data" (JDict [])) as [data|]; cbn; [| done].
  destruct (py_get data "parentFolder" JNull) as [folder_id|]; cbn; [| done].
  destruct (py_get data "downloadPage" _) as [download_page|]; cbn; [| done].
  destruct (py_get data "guestToken" _) as [guest_token|]; cbn; [| done].
  destruct (up_save env) as [[|written]|]; cbn; try done.
  intros _.
  exists r, result,
    (JDict [("file", JStr (basename file_path)); ("folder_id", folder_id);
            ("download_page", download_page); ("guest_token", guest_token)]).
  split; [done |]. split; [done |]. split.
  { destruct status; try done. cbn in Hok. by apply String.eqb_eq in Hok as ->. }
  split; [done |]. split; [done |].
  by rewrite lookup_alter_eq, lookup_insert_eq.
Qed.

Lemma is_Some_alter_insert (m : gmap string string) f k x p :
  is_Some (m !! p) → is_Some (alter f k (<[k:=x]> m) !! p).
Proof.
  intros Hp. destruct (decide (k = p)) as [->|Hne].
  - rewrite lookup_alter_eq, lookup_insert_eq. by eexists.
  - by rewrite lookup_alter_ne, lookup_insert_ne.
Qed.

(** [upload_to_gofile] always returns a boolean, emits no event of another
    step, and removes no file. *)
Lemma upload_to_gofile_run local_path file_path env s :
  ∃ (b : bool) s' t,
    upload_to_gofile json_dumps local_path file_path env s = Run (Ok b) s' t ∧
    Forall (λ ev, quiet ev = true) t ∧
    (∀ p, is_Some (fs s !! p) → is_Some (fs s' !! p)).
Proof.
  unfold upload_to_gofile.
  destruct (get_best_server_run (up_servers env) s) as (line & Hserver & Hline).
  unfold mbind at 1. unfold M_bind at 1. rewrite Hserver.
  unfold post_and_record, save_ledger. unfold_monad. cbn.
  repeat (split_scrutinee; cbn).
  all: eexists _, _, _; split; [reflexivity |].
  all: split; [by repeat constructor |].
  all: try done.
  all: intros p; apply is_Some_alter_insert.
Qed.

(** A successful upload is the successful run of the [try] block. *)
Lemma upload_to_gofile_true local_path file_path env s :
  value (upload_to_gofile json_dumps local_path file_path env s) = Ok true →
  ∃ server,
    value (post_and_record json_dumps server local_path file_path env s) = Ok true ∧
    final (upload_to_gofile json_dumps local_path file_path env s) =
    final (post_and_record json_dumps server local_path file_path env s).
Proof.
  intros Htrue. exists (selection (up_servers env)). revert Htrue.
  unfold upload_to_gofile.
  destruct (get_best_server_run (up_servers env) s) as (line & Hserver & _).
  unfold_monad. rewrite Hserver. cbn.
  destruct (fs s !! local_path); cbn; [| done].
  destruct (up_open_fails env); cbn; [done |].
  by destruct (post_and_record _ _ _ _ _ s) as [[[]|] s' t].
Qed.

(** C1 (amended). A successful upload appends exactly one record to the
    ledger; the record's [file] field is the base name of the remote file name
    (the name itself when it has no slash); and the ledger file then holds the
    serialization of the whole ledger. *)
Theorem upload_appends_record local_path file_path env s :
  value (upload_to_gofile json_dumps local_path file_path env s) = Ok true →
  ∃ info r result,
    up_post env = Reply r ∧ body_json r = Some result ∧
    py_get result "status" JNull = Ok (JStr "ok") ∧
    successful_uploads (final (upload_to_gofile json_dumps local_path file_path env s))
      = (successful_uploads s ++ [info])%list ∧
    length (successful_uploads (final (upload_to_gofile json_dumps local_path file_path env s)))
      = S (length (successful_uploads s)) ∧
    py_getitem info "file" = Ok (JStr (basename file_path)) ∧
    (rfind "/"%char file_path = -1 → py_getitem info "file" = Ok (JStr file_path)) ∧
    fs (final (upload_to_gofile json_dumps local_path file_path env s)) !! LEDGER_FILE
      = Some (json_dumps (JList (successful_uploads
                (final (upload_to_gofile json_dumps local_path file_path env s))))).
Proof.
  intros Htrue.
  destruct (upload_to_gofile_true _ _ _ _ Htrue) as (server & Hpost & ->).
  destruct (post_and_record_true _ _ _ _ _ Hpost)
    as (r & result & info & Hr & Hbody & Hstatus & Hfile & Hledger & Hsaved).
  exists info, r, result. rewrite Hledger.
  repeat split; try done.
  - rewrite length_app. cbn. lia.
  - intros Hflat. by rewrite (basename_flat _ Hflat) in Hfile.
Qed.

(** X2. When the service accepts the file but the ledger file cannot be
    written, the record is already in the in-memory ledger and stays there,
    while [upload_to_gofile] reports a failure. *)
Theorem save_failure_keeps_record local_path file_path env s r result data fault :
  is_Some (fs s !! local_path) →
  up_open_fails env = false →
  up_post env = Reply r →
  http_error r = false →
  body_json r = Some result →
  py_get result "status" JNull = Ok (JStr "ok") →
  py_get result "data" (JDict []) = Ok data →
  is_dict data = true →
  up_save env = Some fault →
  value (upload_to_gofile json_dumps local_path file_path env s) = Ok false ∧
  length (successful_uploads
            (final (upload_to_gofile json_dumps local_path file_path env s)))
    = S (length (successful_uploads s)).
Proof.
  intros [content Hfile] Hopen Hpost Herr Hbody Hstatus Hdata Hdict Hsave.
  unfold upload_to_gofile.
  destruct (get_best_server_run (up_servers env) s) as (line & Hserver & _).
  unfold post_and_record, save_ledger. unfold_monad.
  rewrite Hserver. cbn. rewrite Hfile, Hopen. cbn. rewrite Hpost. cbn.
  rewrite Herr. cbn. rewrite Hbody. cbn. rewrite Hstatus. cbn.
  rewrite Hdata. cbn. destruct data as [| | | | | |d]; try done. cbn.
  rewrite Hsave. destruct fault as [|written]; cbn.
  all: rewrite length_app; cbn; split; [done | lia].
Qed.

End Upload.

(** ** Downloader and cleanup *)

Lemma write_chunks_run path chunks : ∀ s,
  ∃ files, write_chunks path chunks s = Run (Ok tt) (State files (successful_uploads s)) []
           ∧ (∀ p, is_Some (fs s !! p) → is_Some (files !! p)).
Proof.
  induction chunks as [|chunk chunks IH]; intros s.
  - exists (fs s). by destruct s.
  - cbn [write_chunks]. unfold_monad. cbn.
    destruct (IH (State (alter (λ old, old ++ chunk) path (fs s))
                    (successful_uploads s))) as (files & -> & Hfiles).
    exists files. split; [done |]. intros p Hp. apply Hfiles. cbn.
    destruct (decide (path = p)) as [->|Hne].
    + rewrite lookup_alter_eq. destruct Hp as [x ->]. by eexists.
    + by rewrite lookup_alter_ne.
Qed.

Lemma download_file_run sp file_path env s :
  ∃ v s' t,
    download_file sp file_path env s = Run v s' t ∧
    successful_uploads s' = successful_uploads s ∧
    Forall (λ ev, quiet ev = true) t ∧
    v = (if dl_makedirs_fails env then Raise OSError
         else if downloads env then Ok (Some (local_filename file_path))
         else Ok None) ∧
    (downloads env = true → is_Some (fs s' !! local_filename file_path)) ∧
    (∀ p, is_Some (fs s !! p) → is_Some (fs s' !! p)).
Proof.
  unfold download_file, downloads, local_filename.
  unfold_monad. cbn.
  destruct (dl_makedirs_fails env); cbn.
  { eexists _, _, _. split; [done |]. repeat split; try done. by repeat constructor. }
  destruct (dl_reply env) as [|r]; cbn.
  { eexists _, _, _. split; [done |]. repeat split; try done. by repeat constructor. }
  destruct (http_error r); cbn.
  { eexists _, _, _. split; [done |]. repeat split; try done. by repeat constructor. }
  destruct (dl_open_fails env); cbn.
  { eexists _, _, _. split; [done |]. repeat split; try done. by repeat constructor. }
  match goal with
  | |- context [write_chunks ?p ?c ?st] =>
      destruct (write_chunks_run p c st) as (files & -> & Hfiles)
  end.
  cbn in *.
  assert (is_Some (files !! path_join TEMP_DOWNLOAD_DIR (basename file_path))) as Hfile.
  { apply Hfiles. rewrite lookup_insert_eq. by eexists. }
  assert (∀ p, is_Some (fs s !! p) → is_Some (files !! p)) as Hkeep.
  { intros p Hp. apply Hfiles.
    destruct (decide (path_join TEMP_DOWNLOAD_DIR (basename file_path) = p)) as [<-|Hne].
    - rewrite lookup_insert_eq. by eexists.
    - by rewrite lookup_insert_ne. }
  destruct (body_broken r); cbn;
    (eexists _, _, _; split; [done |]; repeat split; try done; by repeat constructor).
Qed.

Lemma cleanup_run path fails s :
  ∃ s' t,
    cleanup path fails s = Run (Ok tt) s' t ∧
    successful_uploads s' = successful_uploads s ∧
    Forall (λ ev, quiet ev = true) t ∧
    (is_Some (fs s !! path) → fails = false → fs s' !! path = None) ∧
    (fails = true → s' = s) ∧
    (∀ p, path ≠ p → fs s' !! p = fs s !! p).
Proof.
  unfold cleanup. unfold_monad. cbn.
  destruct (fs s !! path) eqn:Hp; cbn; [destruct fails; cbn |].
  all: eexists _, _; split; [done |]; repeat split; try done.
  all: try (by repeat constructor).
  all: try (intros _ _; cbn; apply lookup_delete_eq).
  all: try (by intros [? ?]).
  all: intros p Hne; cbn; by rewrite lookup_delete_ne.
Qed.

Lemma quiet_attempts t : Forall (λ ev, quiet ev = true) t → attempts t = [].
Proof.
  induction 1 as [|ev t Hev _ IH]; [done |]. unfold attempts in *. cbn.
  rewrite IH. by destruct ev as [[]| | | | | | |].
Qed.

Lemma quiet_sleeps t : Forall (λ ev, quiet ev = true) t → sleeps t = [].
Proof.
  induction 1 as [|ev t Hev _ IH]; [done |]. unfold sleeps in *. cbn.
  rewrite IH. by destruct ev as [[]| | | | | | |].
Qed.

(** ** Transfer Orchestrator *)

Lemma attempts_app t1 t2 : attempts (t1 ++ t2) = (attempts t1 ++ attempts t2)%list.
Proof. apply omap_app. Qed.

Lemma sleeps_app t1 t2 : sleeps (t1 ++ t2) = (sleeps t1 ++ sleeps t2)%list.
Proof. apply omap_app. Qed.

Lemma local_filename_truthy file_path :
  path_truthy (Some (local_filename file_path)) = true.
Proof. unfold local_filename. by rewrite local_filename_eq. Qed.

Lemma keep_alive_run ticks s :
  keep_alive ticks s =
    Run (Ok tt) s (repeat (Sleep 1) ticks ++ [Printed LogInterrupted]).
Proof.
  induction ticks as [|n IH]; [done |].
  cbn [keep_alive]. unfold_monad. cbn. by rewrite IH.
Qed.



Section Orchestrator.
Context (json_dumps : json → string).

Lemma loop_iteration_run index total file_path env s :
  ∃ s' t,
    loop_iteration json_dumps index total file_path env s =
      Run (Ok tt) s' (Printed (LogProcessing index total file_path) :: t) ∧
    attempts t = [] ∧
    sleeps t = (if downloads (fe_download env) && (index <? total)%nat
                then [TIMEOUT_BETWEEN_UPLOADS] else []).
Proof.
  unfold loop_iteration, process_file. unfold_monad. cbn -[path_truthy Nat.ltb].
  destruct (download_file_run SOURCE_SPACE file_path (fe_download env) s)
    as (v & s1 & t1 & -> & _ & Hq1 & -> & _).
  pose proof (quiet_attempts _ Hq1) as Ha1. pose proof (quiet_sleeps _ Hq1) as Hs1.
  destruct (downloads (fe_download env)) eqn:Hdl;
    destruct (dl_makedirs_fails (fe_download env)) eqn:Hmk;
    try (unfold downloads in Hdl; rewrite Hmk in Hdl; discriminate).
  2, 3: cbn; eexists _, _; (split; [reflexivity |]);
        rewrite ?attempts_app, ?sleeps_app, ?Ha1, ?Hs1; done.
  cbn -[path_truthy Nat.ltb].
  rewrite local_filename_truthy. cbn -[Nat.ltb].
  destruct (upload_to_gofile_run json_dumps (local_filename file_path) file_path
              (fe_upload env) s1) as (b & s2 & t2 & -> & Hq2 & _).
  pose proof (quiet_attempts _ Hq2) as Ha2. pose proof (quiet_sleeps _ Hq2) as Hs2.
  cbn -[Nat.ltb]. destruct b; cbn -[Nat.ltb].
  - destruct (cleanup_run (local_filename file_path) (fe_remove_fails env) s2)
      as (s3 & t3 & -> & _ & Hq3 & _).
    pose proof (quiet_attempts _ Hq3) as Ha3. pose proof (quiet_sleeps _ Hq3) as Hs3.
    cbn -[Nat.ltb]. destruct (index <? total)%nat; cbn;
      (eexists _, _; (split; [reflexivity |]);
       rewrite ?attempts_app, ?sleeps_app, ?Ha1, ?Hs1, ?Ha2, ?Hs2, ?Ha3, ?Hs3;
       done).
  - destruct (index <? total)%nat; cbn;
      (eexists _, _; (split; [reflexivity |]);
       rewrite ?attempts_app, ?sleeps_app, ?Ha1, ?Hs1, ?Ha2, ?Hs2; done).
Qed.

(** An iteration removes no file but the copy it has uploaded. *)
Lemma loop_iteration_keeps index total file_path env s p :
  local_filename file_path ≠ p →
  is_Some (fs s !! p) →
  is_Some (fs (final (loop_iteration json_dumps index total file_path env s)) !! p).
Proof.
  intros Hne Hp.
  unfold loop_iteration, process_file. unfold_monad. cbn -[path_truthy Nat.ltb].
  destruct (download_file_run SOURCE_SPACE file_path (fe_download env) s)
    as (v & s1 & t1 & -> & _ & _ & -> & _ & Hk1).
  specialize (Hk1 p Hp).
  destruct (dl_makedirs_fails (fe_download env)); [done |].
  destruct (downloads (fe_download env)); cbn -[path_truthy Nat.ltb]; [| done].
  rewrite local_filename_truthy. cbn -[Nat.ltb].
  destruct (upload_to_gofile_run json_dumps (local_filename file_path) file_path
              (fe_upload env) s1) as (b & s2 & t2 & -> & _ & Hk2).
  specialize (Hk2 p Hk1). cbn -[Nat.ltb]. destruct b; cbn -[Nat.ltb].
  - destruct (cleanup_run (local_filename file_path) (fe_remove_fails env) s2)
      as (s3 & t3 & -> & _ & _ & _ & _ & Hk3).
    cbn -[Nat.ltb]. destruct (index <? total)%nat; cbn; by rewrite Hk3.
  - by destruct (index <? total)%nat.
Qed.

Lemma transfer_loop_run total envs files : ∀ index s,
  ∃ s' t,
    transfer_loop json_dumps total index files envs s = Run (Ok tt) s' t ∧
    attempts t = enumerate index files ∧
    sleeps t = flat_map (pause total envs) (enumerate index files).
Proof.
  induction files as [|file_path rest IH]; intros index s.
  - by exists s, [].
  - cbn [transfer_loop]. unfold mbind, M_bind.
    destruct (loop_iteration_run index total file_path (envs index) s)
      as (s1 & t1 & -> & Ha1 & Hs1).
    destruct (IH (S index) s1) as (s2 & t2 & -> & Ha2 & Hs2).
    eexists _, _. split; [reflexivity |].
    change (Printed (LogProcessing index total file_path) :: t1)
      with ([Printed (LogProcessing index total file_path)] ++ t1)%list.
    rewrite !attempts_app, !sleeps_app, Ha1, Hs1, Ha2, Hs2. done.
Qed.

Lemma listing_log_quiet log :
  Forall (λ ev, listing_line ev = true) log →
  attempts log = [] ∧ sleeps log = [] ∧
  Forall (λ ev, transfer_event ev = false) log.
Proof.
  induction 1 as [|ev log Hev _ (IHa & IHs & IHt)]; [done |].
  unfold attempts, sleeps in *. cbn. rewrite IHa, IHs.
  destruct ev as [[]| | | | | | |]; try done. all: by repeat constructor.
Qed.


(** The empty listing: [main] returns at once. *)
Lemma main_empty_run listing envs ticks s :
  value (get_file_list SOURCE_SPACE listing s) = Ok [] →
  ∃ log,
    main json_dumps listing envs ticks s =
      Run (Ok tt) s
        ([ThreadStart; Printed LogStart; HttpGet listing_url] ++ log ++
         [Printed LogNoFiles]) ∧
    Forall (λ ev, listing_line ev = true) log.
Proof.
  intros Hlist. unfold main. unfold_monad.
  destruct (get_file_list_run SOURCE_SPACE listing s) as (names & log & Hrun & Hlog).
  rewrite Hrun in Hlist. cbn in Hlist. injection Hlist as ->.
  rewrite Hrun. by exists log.
Qed.

(** X3. The loop removes no local file other than the copy of the file it has
    just uploaded: a file on disk, such as the copy left behind by a failed
    upload, is still there when the loop ends, provided no listed file is
    downloaded to its path. *)
Theorem leftover_file_stays total files envs p : ∀ index s,
  is_Some (fs s !! p) →
  Forall (λ f, local_filename f ≠ p) files →
  is_Some (fs (final (transfer_loop json_dumps total index files envs s)) !! p).
Proof.
  induction files as [|file_path rest IH]; intros index s Hp Hall; [done |].
  apply Forall_cons in Hall as [Hne Hall].
  pose proof (loop_iteration_keeps index total file_path (envs index) s p Hne Hp)
    as Hkeep.
  cbn [transfer_loop]. unfold mbind, M_bind.
  destruct (loop_iteration_run index total file_path (envs index) s)
    as (s1 & t1 & Hrun & _). rewrite Hrun in *. cbn in Hkeep.
  specialize (IH (S index) s1 Hkeep Hall).
  by destruct (transfer_loop json_dumps total (S index) rest envs s1).
Qed.


(** The local copy at the end of the loop body, by the outcome of the
    upload. *)
Lemma process_file_local_copy index total file_path env s :
  let local_path := local_filename file_path in
  let d := download_file SOURCE_SPACE file_path (fe_download env) s in
  let u := upload_to_gofile json_dumps local_path file_path (fe_upload env) (final d) in
  let r := process_file json_dumps index total file_path env s in
  value d = Ok (Some local_path) →
  (value u = Ok true ∨ value u = Ok false) ∧
  (value u = Ok true → fe_remove_fails env = false →
   fs (final r) !! local_path = None) ∧
  (value u = Ok false → is_Some (fs (final r) !! local_path)).
Proof.
  intros local_path d u r. subst local_path d u r.
  unfold process_file. unfold_monad. cbn -[path_truthy Nat.ltb].
  destruct (download_file_run SOURCE_SPACE file_path (fe_download env) s)
    as (v & s1 & t1 & -> & _ & _ & Hv & Hfile & _).
  cbn -[path_truthy Nat.ltb]. intros ->.
  assert (downloads (fe_download env) = true) as Hdl.
  { destruct (dl_makedirs_fails _); [done |]. by destruct (downloads _). }
  specialize (Hfile Hdl). rewrite local_filename_truthy. cbn -[Nat.ltb].
  destruct (upload_to_gofile_run json_dumps (local_filename file_path) file_path
              (fe_upload env) s1) as (b & s2 & t2 & -> & _ & Hkeep).
  specialize (Hkeep _ Hfile). cbn -[Nat.ltb].
  split; [destruct b; eauto |]. destruct b; cbn -[Nat.ltb].
  - destruct (cleanup_run (local_filename file_path) (fe_remove_fails env) s2)
      as (s3 & t3 & -> & _ & _ & Hgone & _).
    cbn -[Nat.ltb]. split; [| done]. intros _ Hrm.
    destruct (index <? total)%nat; cbn; by apply Hgone.
  - split; [done |]. intros _. by destruct (index <? total)%nat.
Qed.

(** C2. For a file that was downloaded, the upload returns True or False; the
    local copy is gone after the iteration when the upload succeeded and the
    removal went through, and is still there when the upload failed: with a
    removal that goes through, the copy is deleted if and only if the upload
    succeeds. *)
Theorem local_file_removed_iff_uploaded index total file_path env s :
  let local_path := local_filename file_path in
  let d := download_file SOURCE_SPACE file_path (fe_download env) s in
  let u := upload_to_gofile json_dumps local_path file_path (fe_upload env) (final d) in
  let r := process_file json_dumps index total file_path env s in
  value d = Ok (Some local_path) →
  (value u = Ok true ∨ value u = Ok false) ∧
  (value u = Ok true → fe_remove_fails env = false →
   fs (final r) !! local_path = None) ∧
  (value u = Ok false → is_Some (fs (final r) !! local_path)) ∧
  (fe_remove_fails env = false →
   (fs (final r) !! local_path = None ↔ value u = Ok true)).
Proof.
  intros local_path d u r Hd.
  destruct (process_file_local_copy index total file_path env s Hd)
    as (Hbool & Hgone & Hkept).
  fold local_path d u r in Hbool, Hgone, Hkept.
  repeat split; try done.
  - intros Hnone. destruct Hbool as [Htrue | Hfalse]; [done |].
    destruct (Hkept Hfalse) as [content Hcontent]. congruence.
  - intros Htrue. by apply Hgone.
Qed.


(** C10. When the listing comes back empty, [main] returns at once: the
    listing request is the only call made, nothing is downloaded or uploaded,
    and the files and the ledger are as they were. A space that holds nothing
    but files ending with [.gitattributes] is such a case. *)
Theorem main_stops_on_empty_listing :
  (∀ listing envs ticks s,
     value (get_file_list SOURCE_SPACE listing s) = Ok [] →
     (∃ log,
        main json_dumps listing envs ticks s =
          Run (Ok tt) s
            ([ThreadStart; Printed LogStart; HttpGet listing_url] ++ log ++
             [Printed LogNoFiles]) ∧
        Forall (λ ev, listing_line ev = true) log) ∧
     final (main json_dumps listing envs ticks s) = s ∧
     Forall (λ ev, transfer_event ev = false)
       (trace (main json_dumps listing envs ticks s)) ∧
     (successful_uploads s = [] →
      successful_uploads (final (main json_dumps listing envs ticks s)) = [])) ∧
  (∀ r data entries names s,
     status_code r = 200 →
     body_json r = Some data →
     py_getitem data "siblings" = Ok (JList entries) →
     Forall2 named entries names →
     Forall (λ n, excluded n = true) names →
     value (get_file_list SOURCE_SPACE (Reply r) s) = Ok []).
Proof.
  split.
  - intros listing envs ticks s Hlist.
    destruct (main_empty_run listing envs ticks s Hlist) as (log & Hrun & Hlog).
    destruct (listing_log_quiet log Hlog) as (_ & _ & Hquiet).
    split; [by exists log |]. rewrite Hrun. cbn.
    repeat split; try done.
    repeat (constructor; [done |]). apply Forall_app. split; [done |].
    by repeat constructor.
  - intros r data entries names s Hst Hbody Hsib Hnames Hall.
    rewrite (get_file_list_200 _ r data s Hst Hbody).
    unfold listing_names. rewrite Hsib. cbn.
    rewrite (sibling_names_filter entries names Hnames). f_equal.
    clear Hnames. induction Hall as [|n names Hn _ IH]; [done |].
    cbn. by rewrite Hn.
Qed.

End Orchestrator.

(** ** More on the downloader and on cleanup *)

Lemma append_nil_r (s : string) : s ++ "" = s.
Proof.
  induction s as [|a s IH]; [done |].
  change (String a (s ++ "") = String a s). by rewrite IH.
Qed.

Lemma append_assoc (a b c : string) : (a ++ b) ++ c = a ++ (b ++ c).
Proof.
  induction a as [|x a IH]; [done |].
  change (String x ((a ++ b) ++ c) = String x (a ++ (b ++ c))). by rewrite IH.
Qed.

Lemma alter_as_insert (m : gmap string string) f k c :
  m !! k = Some c → alter f k m = <[k := f c]> m.
Proof.
  intros Hk. apply map_eq. intros p. destruct (decide (k = p)) as [<-|Hne].
  - by rewrite lookup_alter_eq, lookup_insert_eq, Hk.
  - by rewrite lookup_alter_ne, lookup_insert_ne.
Qed.

(** Writing the chunks appends them, in order, to what the file holds. *)
Lemma write_chunks_content path chunks : ∀ s c,
  fs s !! path = Some c →
  write_chunks path chunks s =
    Run (Ok tt)
      (State (<[path := c ++ joined chunks]> (fs s)) (successful_uploads s)) [].
Proof.
  induction chunks as [|chunk chunks IH]; intros s c Hc.
  - cbn. rewrite append_nil_r, (insert_id _ _ _ Hc). by destruct s.
  - cbn [write_chunks]. unfold_monad. cbn.
    rewrite (alter_as_insert _ _ _ _ Hc).
    rewrite (IH _ (c ++ chunk)) by (cbn; apply lookup_insert_eq).
    cbn. by rewrite insert_insert_eq, append_assoc.
Qed.

(** The run of [download_file] once the file has been opened. *)
Lemma download_file_opened sp file_path env r s :
  dl_makedirs_fails env = false →
  dl_reply env = Reply r →
  http_error r = false →
  dl_open_fails env = false →
  download_file sp file_path env s =
    Run (if body_broken r then Ok None else Ok (Some (local_filename file_path)))
      (State (<[local_filename file_path := joined (body_chunks r)]> (fs s))
         (successful_uploads s))
      [Makedirs TEMP_DOWNLOAD_DIR; HttpGet (download_url sp file_path);
       FileOpen (local_filename file_path) "wb";
       FileClose (local_filename file_path);
       Printed (if body_broken r
                then LogDownloadError file_path RequestException
                else LogDownloaded (local_filename file_path))].
Proof.
  intros Hmk Hrp Herr Hopen.
  unfold download_file, local_filename, download_url. unfold_monad.
  rewrite Hmk, Hrp. cbn. rewrite Herr. cbn. rewrite Hopen. cbn.
  rewrite (write_chunks_content _ _ _ "") by (cbn; apply lookup_insert_eq).
  cbn. rewrite insert_insert_eq. by destruct (body_broken r).
Qed.

(** The run of [download_file] when it stops before opening the file. *)
Lemma download_file_refused sp file_path env s :
  dl_makedirs_fails env = false →
  (dl_reply env = NoReply ∨
   (∃ r, dl_reply env = Reply r ∧ (http_error r = true ∨ dl_open_fails env = true))) →
  ∃ e, download_file sp file_path env s =
         Run (Ok None) s
           [Makedirs TEMP_DOWNLOAD_DIR; HttpGet (download_url sp file_path);
            Printed (LogDownloadError file_path e)].
Proof.
  intros Hmk Hcase.
  unfold download_file, local_filename, download_url. unfold_monad.
  rewrite Hmk. cbn.
  destruct Hcase as [-> | (r & -> & Hcase)]; cbn; [eauto |].
  destruct (http_error r) eqn:Herr; cbn; [eauto |].
  destruct Hcase as [? | ->]; [done |]. cbn. eauto.
Qed.

Lemma download_file_no_directory sp file_path env s :
  dl_makedirs_fails env = true →
  download_file sp file_path env s =
    Run (Raise OSError) s [Makedirs TEMP_DOWNLOAD_DIR].
Proof.
  intros Hmk. unfold download_file. unfold_monad. by rewrite Hmk.
Qed.

(** The three ways [download_file] can go. *)
Lemma download_file_cases sp file_path env s :
  (dl_makedirs_fails env = true ∧
   download_file sp file_path env s =
     Run (Raise OSError) s [Makedirs TEMP_DOWNLOAD_DIR]) ∨
  (dl_makedirs_fails env = false ∧ downloads env = false ∧
   ∃ e, download_file sp file_path env s =
          Run (Ok None) s
            [Makedirs TEMP_DOWNLOAD_DIR; HttpGet (download_url sp file_path);
             Printed (LogDownloadError file_path e)]) ∨
  (∃ r, dl_makedirs_fails env = false ∧ dl_reply env = Reply r ∧
        http_error r = false ∧ dl_open_fails env = false ∧
        downloads env = negb (body_broken r) ∧
        download_file sp file_path env s =
          Run (if body_broken r then Ok None
               else Ok (Some (local_filename file_path)))
            (State (<[local_filename file_path := joined (body_chunks r)]> (fs s))
               (successful_uploads s))
            [Makedirs TEMP_DOWNLOAD_DIR; HttpGet (download_url sp file_path);
             FileOpen (local_filename file_path) "wb";
             FileClose (local_filename file_path);
             Printed (if body_broken r
                      then LogDownloadError file_path RequestException
                      else LogDownloaded (local_filename file_path))]).
Proof.
  destruct (dl_makedirs_fails env) eqn:Hmk.
  { left. split; [done |]. by apply download_file_no_directory. }
  right. unfold downloads. rewrite Hmk. cbn.
  destruct (dl_reply env) as [|r] eqn:Hrp.
  { left. repeat split; try done. apply download_file_refused; auto. }
  destruct (http_error r) eqn:Herr.
  { left. repeat split; try done. apply download_file_refused; eauto. }
  destruct (dl_open_fails env) eqn:Hopen.
  { left. repeat split; try done. apply download_file_refused; eauto. }
  right. exists r. repeat split; try done.
  by apply download_file_opened.
Qed.

Lemma local_filename_not_ledger file_path : local_filename file_path ≠ LEDGER_FILE.
Proof.
  unfold local_filename. rewrite local_filename_eq. intros H.
  vm_compute in H. discriminate H.
Qed.

(** X4. A download that succeeds returns [./temp_downloads/<base name>], and
    that file then holds the chunks of the body, end to end, whatever it held
    before; no other file and no ledger entry changes. *)
Theorem download_file_stores_body sp file_path env r s :
  downloads env = true →
  dl_reply env = Reply r →
  value (download_file sp file_path env s) = Ok (Some (local_filename file_path)) ∧
  fs (final (download_file sp file_path env s)) !! local_filename file_path
    = Some (joined (body_chunks r)) ∧
  (∀ p, p ≠ local_filename file_path →
        fs (final (download_file sp file_path env s)) !! p = fs s !! p) ∧
  successful_uploads (final (download_file sp file_path env s))
    = successful_uploads s.
Proof.
  intros Hdl Hrp.
  destruct (download_file_cases sp file_path env s)
    as [[Hmk _] | [(_ & Hno & _) | (r' & _ & Hrp' & _ & _ & Hb & ->)]].
  - unfold downloads in Hdl. by rewrite Hmk in Hdl.
  - congruence.
  - rewrite Hrp in Hrp'. injection Hrp' as <-.
    rewrite Hdl in Hb. destruct (body_broken r); [done |]. cbn.
    repeat split; try done.
    + apply lookup_insert_eq.
    + intros p Hp. by rewrite lookup_insert_ne.
Qed.

(** X5. When the stream breaks after the file has been opened,
    [download_file] returns [None] and the chunks received so far stay on
    disk: nothing removes the partial file. *)
Theorem download_file_broken_stream sp file_path env r s :
  dl_makedirs_fails env = false →
  dl_reply env = Reply r →
  http_error r = false →
  dl_open_fails env = false →
  body_broken r = true →
  value (download_file sp file_path env s) = Ok None ∧
  fs (final (download_file sp file_path env s)) !! local_filename file_path
    = Some (joined (body_chunks r)).
Proof.
  intros Hmk Hrp Herr Hopen Hbroken.
  rewrite (download_file_opened sp file_path env r s Hmk Hrp Herr Hopen).
  rewrite Hbroken. cbn. split; [done |]. apply lookup_insert_eq.
Qed.

(** X7. Whatever happens, [download_file] changes no file but
    [./temp_downloads/<base name>], a path directly inside the temporary
    directory (the base name has no slash) and never the ledger file; the
    ledger is not touched. *)
Theorem download_file_frame sp file_path env s :
  local_filename file_path = "./temp_downloads/" ++ basename file_path ∧
  rfind "/"%char (basename file_path) = -1 ∧
  (∀ p, p ≠ local_filename file_path →
        fs (final (download_file sp file_path env s)) !! p = fs s !! p) ∧
  fs (final (download_file sp file_path env s)) !! LEDGER_FILE
    = fs s !! LEDGER_FILE ∧
  successful_uploads (final (download_file sp file_path env s))
    = successful_uploads s.
Proof.
  assert (∀ p, p ≠ local_filename file_path →
            fs (final (download_file sp file_path env s)) !! p = fs s !! p) as Hframe.
  { intros p Hp.
    destruct (download_file_cases sp file_path env s)
      as [[_ ->] | [(_ & _ & e & ->) | (r & _ & _ & _ & _ & _ & ->)]]; try done.
    cbn. by rewrite lookup_insert_ne. }
  split; [apply local_filename_eq |]. split; [apply rfind_basename |].
  split; [done |]. split.
  - apply Hframe. intros H. by apply (local_filename_not_ledger file_path).
  - by destruct (download_file_cases sp file_path env s)
      as [[_ ->] | [(_ & _ & e & ->) | (r & _ & _ & _ & _ & _ & ->)]].
Qed.

(** The two ways [cleanup] can go. *)
Lemma cleanup_cases path fails s :
  (is_Some (fs s !! path) ∧ fails = false ∧
   cleanup path fails s =
     Run (Ok tt) (State (delete path (fs s)) (successful_uploads s))
       [Printed (LogRemoved path)]) ∨
  ((fs s !! path = None ∨ fails = true) ∧
   cleanup path fails s = Run (Ok tt) s [Printed (LogRemoveError OSError)]).
Proof.
  unfold cleanup. unfold_monad. cbn.
  destruct (fs s !! path) eqn:Hp; cbn; [destruct fails; cbn |]; eauto 6.
Qed.

(** ** More on the lister and on the selector *)


Lemma sibling_names_unnamed files entry :
  entry ∈ files → (∀ n, ¬ named entry n) → ∃ e, sibling_names files = Raise e.
Proof.
  intros Hin Hunnamed.
  induction files as [|file rest IH]; [by inversion Hin |].
  cbn [sibling_names].
  destruct (py_getitem file "rfilename") as [name|] eqn:Hname; cbn; [| eauto].
  destruct name as [| | | |n| |]; eauto.
  apply elem_of_cons in Hin as [-> | Hin]; [by destruct (Hunnamed n) |].
  destruct (IH Hin) as [e ->]. cbn. eauto.
Qed.


(** X10. The listing is all or nothing: one entry of [siblings] without a
    string [rfilename] makes the comprehension raise, and the files of the
    other entries are dropped with it: the result is the empty list. *)
Theorem get_file_list_all_or_nothing sp r data entries entry s :
  status_code r = 200 →
  body_json r = Some data →
  py_getitem data "siblings" = Ok (JList entries) →
  entry ∈ entries →
  (∀ n, ¬ named entry n) →
  value (get_file_list sp (Reply r) s) = Ok [].
Proof.
  intros Hst Hbody Hsiblings Hin Hunnamed.
  rewrite (get_file_list_200 sp r data s Hst Hbody).
  unfold listing_names. rewrite Hsiblings. cbn.
  by destruct (sibling_names_unnamed entries entry Hin Hunnamed) as [e ->].
Qed.






(** ** What a trace and a state show of the uploads *)

Lemma posts_app t1 t2 : posts (t1 ++ t2) = (posts t1 ++ posts t2)%list.
Proof. apply omap_app. Qed.

Lemma reported_app t1 t2 : reported (t1 ++ t2) = (reported t1 ++ reported t2)%list.
Proof. apply omap_app. Qed.

Lemma counts_app t1 t2 : counts (t1 ++ t2) = (counts t1 ++ counts t2)%list.
Proof. apply omap_app. Qed.

Lemma open_files_app t1 t2 : ∀ opened,
  open_files (t1 ++ t2) opened = open_files t1 opened ≫= open_files t2.
Proof.
  induction t1 as [|ev t1 IH]; intros opened; [done |].
  destruct ev as [line|url|? ? ?|path|path mode|path|d|]; cbn; try apply IH.
  destruct opened as [|top below]; [done |].
  destruct (String.eqb top path); [apply IH | done].
Qed.

(** The line [get_best_server] prints is one of its own three. *)
Lemma get_best_server_line rp s :
  ∃ line,
    get_best_server rp s =
      Run (Ok (selection rp)) s
        [HttpGet "https://api.gofile.io/servers"; Printed line] ∧
    (line = LogUsingServer (selection rp) ∨ line = LogServerFallback ∨
     ∃ e, line = LogServerError e).
Proof.
  unfold get_best_server, selection. unfold_monad. cbn.
  destruct rp as [|r]; cbn; [eauto 6 |].
  destruct (http_error r); cbn; [eauto 6 |].
  destruct (body_json r) as [result|]; cbn; [| eauto 6].
  destruct (pick_server result) as [[name|]|e]; cbn; eauto 6.
Qed.

Section UploadSummary.
Context (json_dumps : json → string).

Ltac upload_fails s :=
  exists false, s; eexists _, [];
  split; [reflexivity |];
  split; [intros opened; cbn; by rewrite ?String.eqb_refl |];
  split; [by (left + right) |];
  rewrite ?app_nil_r; repeat split; try done; try (by left).

(** One run of [upload_to_gofile], with all that the later statements need:
    the trace closes the files it opens, sends at most one upload, reports
    the file exactly when the result is [True]; only the ledger file is
    written, and only after a record has been appended. *)
Lemma upload_to_gofile_summary local_path file_path env s :
  ∃ (b : bool) s' t (added : list json),
    upload_to_gofile json_dumps local_path file_path env s = Run (Ok b) s' t ∧
    (∀ opened, open_files t opened = Some opened) ∧
    (posts t = [] ∨ posts t = [(basename local_path, local_path)]) ∧
    reported t = (if b then [file_path] else []) ∧
    counts t = [] ∧
    (∀ p, p ≠ LEDGER_FILE → fs s' !! p = fs s !! p) ∧
    successful_uploads s' = (successful_uploads s ++ added)%list ∧
    (added = [] ∨ ∃ d, added = [upload_info file_path d]) ∧
    (added = [] → s' = s) ∧
    (b = true → added ≠ [] ∧ in_sync json_dumps s') ∧
    (up_save env = None → b = false → added = []).
Proof.
  unfold upload_to_gofile.
  destruct (get_best_server_line (up_servers env) s) as (line & Hserver & Hline).
  unfold mbind at 1. unfold M_bind at 1. rewrite Hserver. clear Hserver.
  unfold post_and_record, save_ledger. unfold_monad. cbn.
  destruct (fs s !! local_path) as [content|]; cbn.
  2: { destruct Hline as [-> | [-> | [? ->]]]; upload_fails s. }
  destruct (up_open_fails env); cbn.
  { destruct Hline as [-> | [-> | [? ->]]]; upload_fails s. }
  destruct (up_post env) as [|r]; cbn.
  { destruct Hline as [-> | [-> | [? ->]]]; upload_fails s. }
  destruct (http_error r); cbn.
  { destruct Hline as [-> | [-> | [? ->]]]; upload_fails s. }
  destruct (body_json r) as [result|]; cbn.
  2: { destruct Hline as [-> | [-> | [? ->]]]; upload_fails s. }
  destruct (py_get result "status" JNull) as [status|]; cbn.
  2: { destruct Hline as [-> | [-> | [? ->]]]; upload_fails s. }
  destruct (py_eq_str status "ok"); cbn.
  2: { destruct Hline as [-> | [-> | [? ->]]]; upload_fails s. }
  destruct (py_get result "data" (JDict [])) as [data|]; cbn.
  2: { destruct Hline as [-> | [-> | [? ->]]]; upload_fails s. }
  destruct data as [| | | | | |d]; cbn.
  1-6: destruct Hline as [-> | [-> | [? ->]]]; upload_fails s.
  destruct (up_save env) as [[|written]|] eqn:Hsave; cbn.
  - destruct Hline as [-> | [-> | [? ->]]].
    all: exists false; eexists _, _, [upload_info file_path d].
    all: split; [reflexivity |].
    all: split; [intros opened; cbn; by rewrite ?String.eqb_refl |].
    all: split; [by right |].
    all: repeat split; try done; eauto.
  - destruct Hline as [-> | [-> | [? ->]]].
    all: exists false; eexists _, _, [upload_info file_path d].
    all: split; [reflexivity |].
    all: split; [intros opened; cbn; by rewrite ?String.eqb_refl |].
    all: split; [by right |].
    all: repeat split; try done; eauto.
    all: intros p Hp; cbn; by rewrite lookup_alter_ne, lookup_insert_ne.
  - destruct Hline as [-> | [-> | [? ->]]].
    all: exists true; eexists _, _, [upload_info file_path d].
    all: split; [reflexivity |].
    all: split; [intros opened; cbn; by rewrite ?String.eqb_refl |].
    all: split; [by right |].
    all: repeat split; try done; eauto.
    all: try (intros p Hp; cbn; by rewrite lookup_alter_ne, lookup_insert_ne).
    all: unfold in_sync; cbn; by rewrite lookup_alter_eq, lookup_insert_eq.
Qed.

End UploadSummary.

Section UploadMore.
Context (json_dumps : json → string).

(** X12. The record of a successful upload has the four fields [file],
    [folder_id], [download_page] and [guest_token], in this order, read from
    the [data] object of the response: a missing [parentFolder] is recorded
    as [None], a missing [downloadPage] or [guestToken] as
    ["No disponible"]. *)
Theorem upload_record_fields local_path file_path env s :
  value (upload_to_gofile json_dumps local_path file_path env s) = Ok true →
  ∃ r result d,
    up_post env = Reply r ∧ body_json r = Some result ∧
    py_get result "data" (JDict []) = Ok (JDict d) ∧
    successful_uploads (final (upload_to_gofile json_dumps local_path file_path env s))
      = (successful_uploads s ++ [upload_info file_path d])%list.
Proof.
  intros Htrue.
  destruct (upload_to_gofile_true _ _ _ _ _ Htrue) as (server & Hpost & ->).
  revert Hpost. unfold post_and_record, save_ledger. unfold_monad. cbn.
  destruct (up_post env) as [|r]; cbn; [done |].
  destruct (http_error r); cbn; [done |].
  destruct (body_json r) as [result|] eqn:Hbody; cbn; [| done].
  destruct (py_get result "status" JNull) as [status|]; cbn; [| done].
  destruct (py_eq_str status "ok"); cbn; [| done].
  destruct (py_get result "data" (JDict [])) as [data|] eqn:Hdata; cbn; [| done].
  destruct data as [| | | | | |d]; try done. cbn.
  destruct (up_save env) as [[|written]|]; cbn; try done.
  intros _. by exists r, result, d.
Qed.

(** X14. [upload_to_gofile] writes no file but [uploads_info.json]: the local
    copy and every other file are as before. It appends at most one record
    to the ledger, never removes or changes one, and writes the ledger file
    only after it has appended a record. *)
Theorem upload_touches_only_ledger_file local_path file_path env s :
  (∀ p, p ≠ LEDGER_FILE →
        fs (final (upload_to_gofile json_dumps local_path file_path env s)) !! p
        = fs s !! p) ∧
  (∃ added : list json,
     successful_uploads (final (upload_to_gofile json_dumps local_path file_path env s))
       = (successful_uploads s ++ added)%list ∧
     (length added ≤ 1)%nat) ∧
  (successful_uploads (final (upload_to_gofile json_dumps local_path file_path env s))
     = successful_uploads s →
   final (upload_to_gofile json_dumps local_path file_path env s) = s).
Proof.
  destruct (upload_to_gofile_summary json_dumps local_path file_path env s)
    as (b & s' & t & added & -> & _ & _ & _ & _ & Hframe & Hadded & Hone & Hsame & _).
  cbn. split; [done |]. split.
  - exists added. split; [done |]. by destruct Hone as [-> | [d ->]]; cbn; lia.
  - intros Hledger. apply Hsame. rewrite Hadded in Hledger.
    apply (f_equal length) in Hledger. rewrite length_app in Hledger.
    destruct added; [done | cbn in Hledger; lia].
Qed.

(** X15. When the local file is not there or cannot be opened,
    [upload_to_gofile] still asks for a server, but sends nothing: it logs
    the error and returns [False], the state is untouched, and the [finally]
    clause closes no file. *)
Theorem upload_without_file_posts_nothing local_path file_path env s :
  fs s !! local_path = None ∨ up_open_fails env = true →
  ∃ line,
    upload_to_gofile json_dumps local_path file_path env s =
      Run (Ok false) s
        [HttpGet "https://api.gofile.io/servers"; Printed line;
         Printed (LogUploadError file_path OSError)].
Proof.
  intros Hcase. unfold upload_to_gofile.
  destruct (get_best_server_run (up_servers env) s) as (line & Hserver & _).
  exists line. unfold_monad. rewrite Hserver. cbn.
  destruct (fs s !! local_path) as [content|]; cbn; [| done].
  destruct Hcase as [? | ->]; done.
Qed.

(** X16. When the local file can be opened, it is sent once, under its base
    name, to the server [get_best_server] has just returned (the fallback
    ["store1"] included), and the file is closed at the end whatever the
    outcome of the upload. *)
Theorem upload_posts_to_selected_server local_path file_path env s :
  is_Some (fs s !! local_path) →
  up_open_fails env = false →
  ∃ line rest,
    value (get_best_server (up_servers env) s) = Ok (selection (up_servers env)) ∧
    trace (upload_to_gofile json_dumps local_path file_path env s) =
      ([HttpGet "https://api.gofile.io/servers"; Printed line;
        FileOpen local_path "rb";
        Printed (LogUploading (selection (up_servers env)));
        HttpPost (selection (up_servers env)) (basename local_path) local_path]
       ++ rest)%list ∧
    posts rest = [] ∧
    last rest = Some (FileClose local_path).
Proof.
  intros [content Hfile] Hopen. unfold upload_to_gofile.
  destruct (get_best_server_run (up_servers env) s) as (line & Hserver & _).
  exists line. rewrite Hserver.
  unfold post_and_record, save_ledger. unfold_monad. rewrite Hserver. cbn.
  rewrite Hfile, Hopen. cbn.
  repeat (split_scrutinee; cbn).
  all: by eexists.
Qed.

End UploadMore.

(** ** More on paths *)

Lemma rfind_after_slash a b : 0 ≤ rfind "/"%char (a ++ "/" ++ b).
Proof.
  induction a as [|c a IH].
  - change ("" ++ "/" ++ b) with (String "/"%char b). cbn [rfind].
    destruct (0 <=? rfind "/"%char b) eqn:E; [apply Z.leb_le in E; lia | done].
  - change (String c a ++ "/" ++ b) with (String c (a ++ "/" ++ b)). cbn [rfind].
    destruct (0 <=? rfind "/"%char (a ++ "/" ++ b)) eqn:E; [lia |].
    apply Z.leb_gt in E. lia.
Qed.

Lemma basename_after_slash a b :
  rfind "/"%char b = -1 → basename (a ++ "/" ++ b) = b.
Proof.
  intros Hb. induction a as [|c a IH].
  - change ("" ++ "/" ++ b) with (String "/"%char b).
    rewrite basename_cons, Hb. done.
  - change (String c a ++ "/" ++ b) with (String c (a ++ "/" ++ b)).
    rewrite basename_cons.
    pose proof (rfind_after_slash a b) as H. apply Z.leb_le in H.
    by rewrite H.
Qed.

(** [os.path.basename] undoes [os.path.join] on a name without a slash. *)
Lemma basename_join a b : rfind "/"%char b = -1 → basename (path_join a b) = b.
Proof.
  intros Hb. unfold path_join.
  destruct (String.prefix "/" b) eqn:Hprefix.
  { destruct b as [|c b]; [done |]. cbn [String.prefix] in Hprefix.
    destruct (ascii_dec "/"%char c) as [<- | _]; [| done].
    cbn [rfind] in Hb. destruct (0 <=? rfind "/"%char b) eqn:E.
    - apply Z.leb_le in E. lia.
    - done. }
  destruct (String.eqb a "") eqn:Hempty.
  { apply String.eqb_eq in Hempty as ->. cbn. by apply basename_flat. }
  cbn. destruct (endswith a "/") eqn:Hslash.
  - apply endswith_spec in Hslash as [p ->].
    rewrite append_assoc. by apply basename_after_slash.
  - by apply basename_after_slash.
Qed.

Lemma basename_local_filename file_path :
  basename (local_filename file_path) = basename file_path.
Proof. apply basename_join, rfind_basename. Qed.

(** X17. [os.path.basename] undoes [os.path.join]: whatever the directory,
    the base name of the local path built from the base name of a remote
    path is that base name again (so the upload is sent under the name the
    ledger records), and taking the base name twice changes nothing. *)
Theorem basename_round_trip directory file_path :
  basename (path_join directory (basename file_path)) = basename file_path ∧
  basename (basename file_path) = basename file_path.
Proof.
  split.
  - apply basename_join, rfind_basename.
  - apply basename_flat, rfind_basename.
Qed.

(** X24. [basename] is the last component of the path: the path is a
    directory part, empty or ending with a slash, followed by the base name,
    and the base name has no slash. *)
Theorem basename_last_component p :
  ∃ d, p = d ++ basename p ∧
       (d = "" ∨ endswith d "/" = true) ∧
       rfind "/"%char (basename p) = -1.
Proof.
  induction p as [|a s (d & Hs & Hd & Hflat)].
  { exists "". vm_compute. auto. }
  rewrite basename_cons.
  destruct (0 <=? rfind "/"%char s) eqn:E.
  - exists (String a d). split; [| split; [right | done]].
    + change (String a d ++ basename s) with (String a (d ++ basename s)).
      by rewrite <- Hs.
    + destruct Hd as [-> | Hd].
      * change ("" ++ basename s) with (basename s) in Hs.
        rewrite <- Hs in Hflat. rewrite Hflat in E. done.
      * apply endswith_spec in Hd as [q ->]. apply endswith_spec.
        by exists (String a q).
  - destruct (Ascii.eqb a "/"%char) eqn:Ea.
    + apply Ascii.eqb_eq in Ea as ->. exists "/".
      split; [done |]. split; [by right |].
      apply Z.leb_gt in E. pose proof (rfind_ge "/"%char s). lia.
    + exists "". split; [done |]. split; [by left |].
      cbn [rfind]. by rewrite E, Ea.
Qed.

(** ** More on the orchestrator *)

Lemma download_file_summary sp file_path env s :
  ∃ v s' t,
    download_file sp file_path env s = Run v s' t ∧
    v = (if dl_makedirs_fails env then Raise OSError
         else if downloads env then Ok (Some (local_filename file_path))
         else Ok None) ∧
    (∀ opened, open_files t opened = Some opened) ∧
    posts t = [] ∧ reported t = [] ∧ counts t = [] ∧
    successful_uploads s' = successful_uploads s ∧
    (∀ p, p ≠ local_filename file_path → fs s' !! p = fs s !! p).
Proof.
  destruct (download_file_cases sp file_path env s)
    as [[Hmk ->] | [(Hmk & Hno & e & ->) | (r & Hmk & _ & _ & _ & Hb & ->)]];
    rewrite Hmk.
  - eexists _, _, _. split; [reflexivity |]. by repeat split.
  - rewrite Hno. eexists _, _, _. split; [reflexivity |]. by repeat split.
  - rewrite Hb. eexists _, _, _. split; [reflexivity |].
    split; [by destruct (body_broken r) |].
    split; [intros opened; cbn; by rewrite String.eqb_refl |].
    split; [done |]. split; [by destruct (body_broken r) |].
    split; [by destruct (body_broken r) |]. split; [done |].
    intros p Hp. cbn. by rewrite lookup_insert_ne.
Qed.

Lemma cleanup_summary path fails s :
  ∃ s' t,
    cleanup path fails s = Run (Ok tt) s' t ∧
    (∀ opened, open_files t opened = Some opened) ∧
    posts t = [] ∧ reported t = [] ∧ counts t = [] ∧
    successful_uploads s' = successful_uploads s ∧
    (∀ p, p ≠ path → fs s' !! p = fs s !! p).
Proof.
  destruct (cleanup_cases path fails s) as [(_ & _ & ->) | (_ & ->)].
  - eexists _, _. split; [reflexivity |]. repeat split; try done.
    intros p Hp. cbn. by rewrite lookup_delete_ne.
  - eexists _, _. split; [reflexivity |]. by repeat split.
Qed.

Lemma listing_log_silent log :
  Forall (λ ev, listing_line ev = true) log →
  (∀ opened, open_files log opened = Some opened) ∧
  posts log = [] ∧ reported log = [] ∧ counts log = [].
Proof.
  induction 1 as [|ev log Hev _ (IHo & IHp & IHr & IHc)]; [done |].
  unfold posts, reported, counts in *.
  destruct ev as [[]| | | | | | |]; try done; cbn; by rewrite IHp, IHr, IHc.
Qed.

Lemma keep_alive_silent ticks :
  (∀ opened, open_files (repeat (Sleep 1) ticks) opened = Some opened) ∧
  posts (repeat (Sleep 1) ticks) = [] ∧
  reported (repeat (Sleep 1) ticks) = [] ∧
  counts (repeat (Sleep 1) ticks) = [].
Proof. induction ticks as [|n (IHo & IHp & IHr & IHc)]; done. Qed.

(** Closes a goal [∀ opened, open_files t opened = Some opened] from the
    same fact about the parts of [t]. *)
Ltac balance :=
  intros ?;
  repeat first
    [ progress cbn [open_files]
    | rewrite open_files_app
    | match goal with
      | H : ∀ opened, open_files ?t opened = Some opened
        |- context [open_files ?t _] => rewrite H
      end
    | progress cbn ];
  try done.

Section OrchestratorSummary.
Context (json_dumps : json → string).

(** One pass of the loop, with all that the later statements need. *)
Lemma loop_iteration_summary index total file_path env s :
  ∃ s' t (added : list json),
    loop_iteration json_dumps index total file_path env s = Run (Ok tt) s' t ∧
    (∀ opened, open_files t opened = Some opened) ∧
    (posts t = [] ∨ posts t = [(basename file_path, local_filename file_path)]) ∧
    (reported t = [] ∨ reported t = [file_path]) ∧
    counts t = [] ∧
    successful_uploads s' = (successful_uploads s ++ added)%list ∧
    (added = [] ∨ ∃ d, added = [upload_info file_path d]) ∧
    (added = [] → fs s' !! LEDGER_FILE = fs s !! LEDGER_FILE) ∧
    (up_save (fe_upload env) = None →
     length added = length (reported t) ∧ (added = [] ∨ in_sync json_dumps s')).
Proof.
  unfold loop_iteration, process_file. unfold_monad. cbn -[path_truthy Nat.ltb].
  destruct (download_file_summary SOURCE_SPACE file_path (fe_download env) s)
    as (v & s1 & t1 & -> & -> & Ho1 & Hp1 & Hr1 & Hc1 & Hl1 & Hf1).
  pose proof (Hf1 LEDGER_FILE
                (λ H, local_filename_not_ledger file_path (eq_sym H))) as Hledger1.
  destruct (dl_makedirs_fails (fe_download env)).
  { exists s1; eexists _, []. split; [reflexivity |].
    split; [balance |].
    change (Printed (LogProcessing index total file_path) :: ?t)%list
      with ([Printed (LogProcessing index total file_path)] ++ t)%list.
    rewrite !posts_app, !reported_app, !counts_app, Hp1, Hr1, Hc1, ?app_nil_r.
    repeat split; auto. }
  destruct (downloads (fe_download env)); cbn -[path_truthy Nat.ltb].
  2: { exists s1; eexists _, []. split; [reflexivity |].
       split; [balance |].
       change (Printed (LogProcessing index total file_path) :: ?t)%list
         with ([Printed (LogProcessing index total file_path)] ++ t)%list.
       rewrite !posts_app, !reported_app, !counts_app, Hp1, Hr1, Hc1, ?app_nil_r.
       repeat split; auto. }
  rewrite local_filename_truthy. cbn -[Nat.ltb].
  destruct (upload_to_gofile_summary json_dumps (local_filename file_path)
              file_path (fe_upload env) s1)
    as (b & s2 & t2 & added & -> & Ho2 & Hp2 & Hr2 & Hc2 & Hf2 & Hl2 & Hone
        & Hsame & Htrue & Hfault).
  rewrite basename_local_filename in Hp2. rewrite Hl1 in Hl2.
  cbn -[Nat.ltb]. destruct b; cbn -[Nat.ltb].
  - destruct (cleanup_summary (local_filename file_path) (fe_remove_fails env) s2)
      as (s3 & t3 & -> & Ho3 & Hp3 & Hr3 & Hc3 & Hl3 & Hf3).
    pose proof (Hf3 LEDGER_FILE
                  (λ H, local_filename_not_ledger file_path (eq_sym H))) as Hledger3.
    destruct (Htrue eq_refl) as [Hsome Hsync].
    assert (in_sync json_dumps s3) as Hsync3.
    { unfold in_sync in *. by rewrite Hledger3, Hl3. }
    rewrite <- Hl3 in Hl2.
    cbn -[Nat.ltb]. destruct (index <? total)%nat; cbn.
    all: exists s3; eexists _, added; (split; [reflexivity |]).
    all: split; [balance |].
    all: change (Printed (LogProcessing index total file_path) :: ?t)%list
           with ([Printed (LogProcessing index total file_path)] ++ t)%list.
    all: rewrite !posts_app, !reported_app, !counts_app,
           Hp1, Hr1, Hc1, Hr2, Hc2, Hp3, Hr3, Hc3; cbn; rewrite ?app_nil_r.
    all: repeat split; auto.
    all: try (intros ->; done).
    all: try (by destruct Hone as [-> | [d ->]]).
  - cbn -[Nat.ltb]. destruct (index <? total)%nat; cbn.
    all: exists s2; eexists _, added; (split; [reflexivity |]).
    all: split; [balance |].
    all: change (Printed (LogProcessing index total file_path) :: ?t)%list
           with ([Printed (LogProcessing index total file_path)] ++ t)%list.
    all: rewrite !posts_app, !reported_app, !counts_app,
           Hp1, Hr1, Hc1, Hr2, Hc2; cbn; rewrite ?app_nil_r.
    all: repeat split; auto.
    all: try (intros ->; rewrite (Hsame eq_refl); done).
    all: try (intros Hsave; rewrite (Hfault Hsave eq_refl); done).
    all: try (intros Hsave; left; by apply Hfault).
    all: rewrite Hfault; done.
Qed.

End OrchestratorSummary.

Lemma in_sync_same json_dumps s s' :
  successful_uploads s' = successful_uploads s →
  fs s' !! LEDGER_FILE = fs s !! LEDGER_FILE →
  in_sync json_dumps s → in_sync json_dumps s'.
Proof. unfold in_sync. by intros -> ->. Qed.

Section OrchestratorMore.
Context (json_dumps : json → string).

(** The whole loop, with all that the later statements need. *)
Lemma transfer_loop_summary total envs files : ∀ index s,
  ∃ s' t (added : list json) (recorded : list string),
    transfer_loop json_dumps total index files envs s = Run (Ok tt) s' t ∧
    (∀ opened, open_files t opened = Some opened) ∧
    posts t `sublist_of` map (λ f, (basename f, local_filename f)) files ∧
    reported t `sublist_of` files ∧
    counts t = [] ∧
    successful_uploads s' = (successful_uploads s ++ added)%list ∧
    recorded `sublist_of` files ∧
    Forall2 (λ info f, ∃ d, info = upload_info f d) added recorded ∧
    (added = [] → fs s' !! LEDGER_FILE = fs s !! LEDGER_FILE) ∧
    ((∀ i, up_save (fe_upload (envs i)) = None) →
     length added = length (reported t) ∧ (added = [] ∨ in_sync json_dumps s')).
Proof.
  induction files as [|file_path rest IH]; intros index s.
  { exists s, [], [], []. rewrite app_nil_r. repeat split; auto; constructor. }
  cbn [transfer_loop]. unfold mbind, M_bind.
  destruct (loop_iteration_summary json_dumps index total file_path (envs index) s)
    as (s1 & t1 & added1 & -> & Ho1 & Hp1 & Hr1 & Hc1 & Hl1 & Hone & Hfile1 & Hsafe1).
  destruct (IH (S index) s1)
    as (s2 & t2 & added2 & recorded2 & -> & Ho2 & Hp2 & Hr2 & Hc2 & Hl2 & Hsub2
        & Hrec2 & Hfile2 & Hsafe2).
  exists s2, (t1 ++ t2)%list, (added1 ++ added2)%list,
    ((if added1 is [] then [] else [file_path]) ++ recorded2)%list.
  split; [done |]. split; [balance |].
  rewrite posts_app, reported_app, counts_app, Hc1, Hc2.
  split. { destruct Hp1 as [-> | ->]; cbn; by constructor. }
  split. { destruct Hr1 as [-> | ->]; cbn; by constructor. }
  split; [done |].
  split. { by rewrite Hl2, Hl1, app_assoc. }
  split. { destruct Hone as [-> | [d ->]]; cbn; by constructor. }
  split. { destruct Hone as [-> | [d ->]]; cbn; [done |]. constructor; eauto. }
  split.
  { intros [-> ->]%app_eq_nil. by rewrite Hfile2, Hfile1. }
  intros Hsave. destruct (Hsafe1 (Hsave index)) as [Hlen1 Hsync1].
  destruct (Hsafe2 Hsave) as [Hlen2 Hsync2].
  split. { rewrite !length_app. lia. }
  destruct Hsync2 as [-> | Hsync2]; [| by right].
  rewrite app_nil_r in *. destruct Hsync1 as [-> | Hsync1]; [by left |].
  right. apply (in_sync_same json_dumps s1); auto.
Qed.

(** The trace of [main] around the loop, when there are files to transfer. *)
Lemma main_trace listing envs ticks s file_list :
  value (get_file_list SOURCE_SPACE listing s) = Ok file_list →
  file_list ≠ [] →
  ∃ log s1 t1,
    Forall (λ ev, listing_line ev = true) log ∧
    transfer_loop json_dumps (length file_list) 1 file_list envs s
      = Run (Ok tt) s1 t1 ∧
    main json_dumps listing envs ticks s =
      Run (Ok tt) s1
        ([ThreadStart; Printed LogStart; HttpGet listing_url] ++ log ++
         [Printed (LogFound (length file_list))] ++ t1 ++
         [Printed LogCompleted;
          Printed (LogUploadCount (length (successful_uploads s1)));
          Printed LogLedgerHint; Printed LogServing; Printed LogVisit;
          Printed LogPressCtrlC] ++
         repeat (Sleep 1) ticks ++ [Printed LogInterrupted]).
Proof.
  intros Hlist Hfiles. unfold main. unfold_monad.
  destruct (get_file_list_run SOURCE_SPACE listing s) as (names & log & Hrun & Hlog).
  rewrite Hrun in Hlist. cbn in Hlist. injection Hlist as ->.
  rewrite Hrun. destruct file_list as [|f rest]; [done |]. cbn -[transfer_loop].
  destruct (transfer_loop_run json_dumps (S (length rest)) envs (f :: rest) 1 s)
    as (s1 & t1 & Hloop & _).
  rewrite Hloop, keep_alive_run. cbn -[transfer_loop].
  exists log, s1, t1. split; [done |]. split; [done |].
  done.
Qed.

(** X19. No retries and no stray uploads: over the loop the uploads that are
    sent are, in the order of the listing, at most one for each file, each
    under the base name of the remote file and from its copy in the
    temporary directory. *)
Theorem one_upload_per_file total envs files index s :
  posts (trace (transfer_loop json_dumps total index files envs s))
    `sublist_of` map (λ f, (basename f, local_filename f)) files.
Proof.
  by destruct (transfer_loop_summary total envs files index s)
    as (s' & t & added & recorded & -> & _ & Hposts & _).
Qed.

(** X20. The ledger only grows: the loop keeps the records it finds, in
    place, and appends records of listed files, at most one for each file and
    in the order of the listing, every one under the base name of its
    file. *)
Theorem ledger_append_only total envs files index s :
  ∃ (added : list json) (recorded : list string),
    successful_uploads (final (transfer_loop json_dumps total index files envs s))
      = (successful_uploads s ++ added)%list ∧
    recorded `sublist_of` files ∧
    Forall2 (λ info f, py_getitem info "file" = Ok (JStr (basename f)))
      added recorded.
Proof.
  destruct (transfer_loop_summary total envs files index s)
    as (s' & t & added & recorded & -> & _ & _ & _ & _ & Hledger & Hsub & Hrec & _).
  exists added, recorded. split; [done |]. split; [done |].
  eapply Forall2_impl; [done |]. by intros info f [d ->].
Qed.

(** X21. When the ledger file can be written, what [/uploads] serves after
    the loop is what [uploads_info.json] holds: either the loop has recorded
    nothing, and the list and the file are as they were, or the file is the
    serialization of the list that is served. The handler itself changes
    nothing. *)
Theorem uploads_endpoint_matches_file total envs files index s :
  (∀ i, up_save (fe_upload (envs i)) = None) →
  ∃ served,
    get_uploads (final (transfer_loop json_dumps total index files envs s)) =
      Run (Ok (JDict [("uploads", JList served)]))
        (final (transfer_loop json_dumps total index files envs s)) [] ∧
    ((served = successful_uploads s ∧
      fs (final (transfer_loop json_dumps total index files envs s)) !! LEDGER_FILE
        = fs s !! LEDGER_FILE) ∨
     fs (final (transfer_loop json_dumps total index files envs s)) !! LEDGER_FILE
       = Some (json_dumps (JList served))).
Proof.
  intros Hsave.
  destruct (transfer_loop_summary total envs files index s)
    as (s' & t & added & recorded & -> & _ & _ & _ & _ & Hledger & _ & _ & Hfile
        & Hsafe).
  exists (successful_uploads s'). split; [done |]. cbn.
  destruct (Hsafe Hsave) as [_ [-> | Hsync]]; [| by right].
  left. rewrite app_nil_r in Hledger. auto.
Qed.

(** X22. When the script starts with an empty ledger and the ledger file can
    be written, the number of uploads [main] announces at the end is the
    number of files it has reported as uploaded. *)
Theorem upload_count_is_reported listing envs ticks s file_list :
  successful_uploads s = [] →
  (∀ i, up_save (fe_upload (envs i)) = None) →
  value (get_file_list SOURCE_SPACE listing s) = Ok file_list →
  file_list ≠ [] →
  counts (trace (main json_dumps listing envs ticks s))
    = [length (reported (trace (main json_dumps listing envs ticks s)))].
Proof.
  intros Hempty Hsave Hlist Hfiles.
  destruct (main_trace listing envs ticks s file_list Hlist Hfiles)
    as (log & s1 & t1 & Hlog & Hloop & ->).
  destruct (listing_log_silent log Hlog) as (_ & _ & Hrl & Hcl).
  destruct (keep_alive_silent ticks) as (_ & _ & Hrk & Hck).
  destruct (transfer_loop_summary (length file_list) envs file_list 1 s)
    as (s1' & t1' & added & recorded & Hloop' & _ & _ & _ & Hc1 & Hledger & _ & _ & _
        & Hsafe).
  rewrite Hloop in Hloop'. injection Hloop' as <- <-.
  destruct (Hsafe Hsave) as [Hlen _].
  cbn [trace]. rewrite !counts_app, !reported_app, Hrl, Hcl, Hrk, Hck, Hc1.
  cbn. rewrite !app_nil_r, Hledger, Hempty. cbn. by rewrite Hlen.
Qed.

(** X23. When the download fails, the iteration does nothing else: no server
    is asked for, nothing is uploaded or removed, there is no pause. The
    trace is the announcement of the file, the trace of the download and,
    when it was [os.makedirs] that failed, the line of the loop's handler. *)
Theorem failed_download_skips_upload index total file_path env s :
  downloads (fe_download env) = false →
  loop_iteration json_dumps index total file_path env s =
    Run (Ok tt)
      (final (download_file SOURCE_SPACE file_path (fe_download env) s))
      (Printed (LogProcessing index total file_path)
       :: trace (download_file SOURCE_SPACE file_path (fe_download env) s)
       ++ (if dl_makedirs_fails (fe_download env)
           then [Printed (LogFileError file_path OSError)] else [])).
Proof.
  intros Hno.
  unfold loop_iteration, process_file. unfold_monad. cbn -[path_truthy Nat.ltb].
  destruct (download_file_summary SOURCE_SPACE file_path (fe_download env) s)
    as (v & s1 & t1 & -> & -> & _).
  rewrite Hno. destruct (dl_makedirs_fails (fe_download env)); cbn; [done |].
  by rewrite app_nil_r.
Qed.

End OrchestratorMore.

(** ** The script on any console *)

(** Closes a goal that asks for a line to be written when the context holds
    that the console refuses it, [Hall] saying that it writes such lines. *)
Ltac refused Hall :=
  exfalso;
  repeat match goal with
         | H : _ = Some _ |- _ =>
             first [ rewrite Hall in H; discriminate H | clear H ]
         end.

Section Console.
Context (out : Stdout) (json_dumps : json → string).

(** What [get_best_server] does on a console that may refuse a line: the
    line of the [try] block is written, or else the line of the handler, or
    else the exception of that [print] leaves the function. *)
Lemma get_best_server_any rp s :
  ∃ v t,
    get_best_server rp s = Run v s (HttpGet "https://api.gofile.io/servers" :: t) ∧
    Forall (λ ev, quiet ev = true) t ∧
    (∀ opened, open_files t opened = Some opened) ∧
    posts t = [] ∧
    ((∀ e, out (LogServerError e) = None) → ∃ server, v = Ok server).
Proof.
  unfold get_best_server. unfold_monad. cbn.
  destruct rp as [|r]; cbn.
  2: destruct (http_error r); cbn.
  3: destruct (body_json r) as [result|]; cbn.
  3: destruct (pick_server result) as [[name|]|e]; cbn.
  all: repeat (split_scrutinee; cbn).
  all: eexists _, _; split; [reflexivity |].
  all: split; [by repeat constructor |].
  all: split; [done |]. all: split; [done |].
  all: intros Hall; first [by eexists | refused Hall].
Qed.

(** The run of [get_best_server] when the line of its [try] block is
    written. *)
Lemma get_best_server_announced rp servers best s :
  lists_servers rp servers →
  py_max score_key servers = Ok best →
  (py_truthy (candidate_name best) = true →
   out (LogUsingServer (candidate_name best)) = None →
   value (get_best_server rp s) = Ok (candidate_name best)) ∧
  (py_truthy (candidate_name best) = false →
   out LogServerFallback = None →
   value (get_best_server rp s) = Ok FALLBACK_SERVER).
Proof.
  intros (r & result & data & -> & Hst & Hbody & Hstatus & Hdata & Hservers) Hmax.
  pose proof (pick_server_selected _ _ _ _ Hstatus Hdata Hservers Hmax) as Hpick.
  unfold get_best_server. unfold_monad. cbn. rewrite Hst. cbn.
  rewrite Hbody. cbn. rewrite Hpick.
  split; intros Htruthy Hline; rewrite Htruthy; cbn; by rewrite Hline.
Qed.

(** C5 (amended). For a well-formed server list with at least one candidate,
    all of them objects with numeric scores, the selector finds the first
    candidate with the highest score (a missing score counting as 0). When
    the line that reports its choice can be written to the console, it
    returns the name of that candidate if the name is non-empty, and the
    fallback otherwise. *)
Theorem get_best_server_selects rp servers s :
  lists_servers rp servers →
  servers ≠ [] →
  forallb is_candidate servers = true →
  ∃ best, first_best servers best ∧
    (py_truthy (candidate_name best) = true →
     out (LogUsingServer (candidate_name best)) = None →
     value (get_best_server rp s) = Ok (candidate_name best)) ∧
    (py_truthy (candidate_name best) = false →
     out LogServerFallback = None →
     value (get_best_server rp s) = Ok FALLBACK_SERVER).
Proof.
  intros Hrp Hne Hall.
  destruct (py_max_first_best servers Hne Hall) as (best & Hmax & Hbest).
  exists best. split; [done |].
  by apply get_best_server_announced with servers.
Qed.

(** What [download_file] does on any console: the events are its own, the
    file it opens is closed again, the ledger is not touched, and a path that
    is returned is the local path of the file. *)
Lemma download_file_any sp file_path env s :
  ∃ v s' t,
    download_file sp file_path env s = Run v s' t ∧
    Forall (λ ev, quiet ev = true) t ∧
    (∀ opened, open_files t opened = Some opened) ∧
    posts t = [] ∧
    successful_uploads s' = successful_uploads s ∧
    (∀ p, v = Ok (Some p) → p = local_filename file_path) ∧
    ((∀ e, out (LogDownloadError file_path e) = None) →
     (dl_makedirs_fails env = true → v = Raise OSError) ∧
     (dl_makedirs_fails env = false → ∃ path, v = Ok path) ∧
     (dl_makedirs_fails env = false → downloads env = false → v = Ok None)).
Proof.
  unfold download_file, downloads, local_filename. unfold_monad. cbn.
  destruct (dl_makedirs_fails env); cbn.
  { eexists _, _, _. split; [reflexivity |]. repeat split; try done.
    by repeat constructor. }
  destruct (dl_reply env) as [|r]; cbn.
  2: destruct (http_error r); cbn.
  3: destruct (dl_open_fails env); cbn.
  4: rewrite (write_chunks_content _ _ _ "") by (cbn; apply lookup_insert_eq).
  4: cbn; destruct (body_broken r); cbn.
  all: repeat (split_scrutinee; cbn).
  all: eexists _, _, _; split; [reflexivity |].
  all: split; [by repeat constructor |].
  all: split; [intros opened; cbn; by rewrite ?String.eqb_refl |].
  all: split; [done |]. all: split; [done |].
  all: split; [by intros p [= <-] |].
  all: intros Hall; first [by repeat split; eauto | refused Hall].
Qed.

(** X6. On a console that writes the error line of [download_file], the only
    exception that leaves the function is the one of [os.makedirs], which
    stands before the [try]: it is raised before any request is made and
    leaves the state as it was, whatever the console. A failed request, an
    error status, a file that cannot be opened and a broken stream all give
    [None]. *)
Theorem download_file_raises_only_makedirs sp file_path env s :
  (∀ e, out (LogDownloadError file_path e) = None) →
  ((∃ e, value (download_file sp file_path env s) = Raise e) ↔
   dl_makedirs_fails env = true) ∧
  (dl_makedirs_fails env = true →
   download_file sp file_path env s =
     Run (Raise OSError) s [Makedirs TEMP_DOWNLOAD_DIR]) ∧
  (dl_makedirs_fails env = false → downloads env = false →
   value (download_file sp file_path env s) = Ok None).
Proof.
  intros Hall. split; [| split].
  - destruct (download_file_any sp file_path env s)
      as (v & s' & t & -> & _ & _ & _ & _ & _ & Hvalue).
    destruct (Hvalue Hall) as (Hraise & Hok & _). cbn.
    destruct (dl_makedirs_fails env).
    + split; [done |]. intros _. rewrite Hraise by done. eauto.
    + split; [| done]. intros [e ->]. by destruct (Hok eq_refl).
  - intros Hmk. unfold download_file. unfold_monad. by rewrite Hmk.
  - intros Hmk Hno.
    destruct (download_file_any sp file_path env s)
      as (v & s' & t & -> & _ & _ & _ & _ & _ & Hvalue).
    destruct (Hvalue Hall) as (_ & _ & Hnone). cbn. auto.
Qed.

(** What [cleanup] does on any console. *)
Lemma cleanup_any path fails s :
  ∃ v s' t,
    cleanup path fails s = Run v s' t ∧
    Forall (λ ev, quiet ev = true) t ∧
    (∀ opened, open_files t opened = Some opened) ∧
    posts t = [] ∧
    successful_uploads s' = successful_uploads s ∧
    (∀ p, p ≠ path → fs s' !! p = fs s !! p) ∧
    (fs s !! path = None ∨ fails = true → s' = s) ∧
    (is_Some (fs s !! path) → fails = false → fs s' !! path = None).
Proof.
  unfold cleanup. unfold_monad. cbn.
  destruct (fs s !! path) as [content|] eqn:Hpath; cbn; [destruct fails; cbn |].
  all: repeat (split_scrutinee; cbn).
  all: eexists _, _, _; split; [reflexivity |].
  all: split; [by repeat constructor |].
  all: split; [done |]. all: split; [done |]. all: split; [done |].
  all: split; [intros p Hp; cbn; by rewrite ?lookup_delete_ne |].
  all: split; [intros [? | ?]; by destruct s |].
  all: intros Hsome Hfails; cbn; first [apply lookup_delete_eq | done | by destruct Hsome].
Qed.

(** X8. Whatever the console writes or refuses, [cleanup] touches nothing
    but its file: the ledger and every other file are as before; when the
    file is not there or the removal is refused the state is unchanged; and
    when the file is there and the removal goes through the file is gone. *)
Theorem cleanup_removes_only_its_file path fails s :
  successful_uploads (final (cleanup path fails s)) = successful_uploads s ∧
  (∀ p, p ≠ path → fs (final (cleanup path fails s)) !! p = fs s !! p) ∧
  (fs s !! path = None ∨ fails = true → final (cleanup path fails s) = s) ∧
  (is_Some (fs s !! path) → fails = false →
   fs (final (cleanup path fails s)) !! path = None).
Proof.
  by destruct (cleanup_any path fails s)
    as (v & s' & t & -> & _ & _ & _ & Hledger & Hframe & Hsame & Hgone).
Qed.

(** What [upload_to_gofile] does on any console: its events are its own,
    the files it opens are closed again, and when the two error lines can be
    written it returns a boolean. *)
Lemma upload_to_gofile_any local_path file_path env s :
  ∃ v s' t,
    upload_to_gofile json_dumps local_path file_path env s = Run v s' t ∧
    Forall (λ ev, quiet ev = true) t ∧
    (∀ opened, open_files t opened = Some opened) ∧
    ((∀ e, out (LogServerError e) = None) →
     (∀ e, out (LogUploadError file_path e) = None) →
     ∃ b : bool, v = Ok b).
Proof.
  unfold upload_to_gofile.
  destruct (get_best_server_any (up_servers env) s)
    as (v0 & t0 & Hserver & Hq0 & Hb0 & _ & Hok0).
  unfold mbind at 1. unfold M_bind at 1. rewrite Hserver. clear Hserver.
  destruct v0 as [server|e0].
  2: { eexists _, _, _. split; [reflexivity |].
       split; [by constructor |]. split; [intros opened; apply Hb0 |].
       intros Hall _. by destruct (Hok0 Hall). }
  clear Hok0. unfold post_and_record, save_ledger. unfold_monad. cbn.
  destruct (fs s !! local_path) as [content|]; cbn.
  2: { repeat (split_scrutinee; cbn).
       all: eexists _, _, _; split; [reflexivity |].
       all: split; [constructor; [done |]; apply Forall_app; split;
                    [done | by repeat constructor] |].
       all: split; [intros opened; cbn [open_files];
                    by rewrite open_files_app, Hb0 |].
       all: intros _ Hall; first [by eexists | refused Hall]. }
  destruct (up_open_fails env); cbn.
  { repeat (split_scrutinee; cbn).
    all: eexists _, _, _; split; [reflexivity |].
    all: split; [constructor; [done |]; apply Forall_app; split;
                 [done | by repeat constructor] |].
    all: split; [intros opened; cbn [open_files];
                 by rewrite open_files_app, Hb0 |].
    all: intros _ Hall; first [by eexists | refused Hall]. }
  destruct (up_post env) as [|r]; cbn.
  2: destruct (http_error r); cbn.
  3: destruct (body_json r) as [result|]; cbn.
  3: destruct (py_get result "status" JNull) as [status|]; cbn.
  3: destruct (py_eq_str status "ok"); cbn.
  3: destruct (py_get result "data" (JDict [])) as [data|]; cbn.
  3: destruct data as [| | | | | |d]; cbn.
  9: destruct (up_save env) as [[|written]|]; cbn.
  all: repeat (split_scrutinee; cbn).
  all: eexists _, _, _; split; [reflexivity |].
  all: split; [constructor; [done |]; apply Forall_app; split;
               [done | by repeat constructor] |].
  all: split; [intros opened; cbn [open_files];
               rewrite open_files_app, Hb0; cbn; by rewrite ?String.eqb_refl |].
  all: intros _ Hall; first [by eexists | refused Hall].
Qed.

(** X1. On a console that writes the error lines of the selector and of the
    uploader, [upload_to_gofile] returns a boolean whatever the network, the
    disk and the rest of the console do: no exception leaves it. *)
Theorem upload_to_gofile_returns_bool local_path file_path env s :
  (∀ e, out (LogServerError e) = None) →
  (∀ e, out (LogUploadError file_path e) = None) →
  value (upload_to_gofile json_dumps local_path file_path env s) = Ok true ∨
  value (upload_to_gofile json_dumps local_path file_path env s) = Ok false.
Proof.
  intros Hserver Hupload.
  destruct (upload_to_gofile_any local_path file_path env s)
    as (v & s' & t & -> & _ & _ & Hbool).
  destruct (Hbool Hserver Hupload) as [[] ->]; eauto.
Qed.

(** X13. On a console that writes the lines reporting a finished upload, an
    upload that returns [False] for another reason than the writing of the
    ledger file leaves no trace in the state: no record is appended and no
    file is changed. *)
Theorem failed_upload_leaves_state local_path file_path env s :
  value (upload_to_gofile json_dumps local_path file_path env s) = Ok false →
  up_save env = None →
  (∀ line, report_line line = true → out line = None) →
  final (upload_to_gofile json_dumps local_path file_path env s) = s.
Proof.
  intros Hfalse Hsave Hreport. revert Hfalse. unfold upload_to_gofile.
  destruct (get_best_server_any (up_servers env) s)
    as (v0 & t0 & Hserver & _).
  unfold post_and_record, save_ledger. unfold_monad. rewrite Hserver.
  clear Hserver. destruct v0 as [server|e0]; [| done]. cbn. rewrite Hsave.
  repeat (split_scrutinee; cbn).
  all: intros Hfalse; try done.
  all: exfalso;
    repeat match goal with
           | H : _ = Some _ |- _ =>
               first [ rewrite Hreport in H by reflexivity; discriminate H
                     | clear H ]
           end.
Qed.

(** X25. An upload that returns [False] after it has appended its record is
    one whose ledger file could not be written, or one whose report could not
    be printed. In the first case, when the file could not be opened the
    previous ledger file is still there, and when the write broke off the
    file has been truncated and holds only the characters written so far. In
    the second case the ledger file holds the whole ledger, the new record
    included. *)
Theorem unsaved_record_ledger_file local_path file_path env s :
  value (upload_to_gofile json_dumps local_path file_path env s) = Ok false →
  successful_uploads (final (upload_to_gofile json_dumps local_path file_path env s))
    ≠ successful_uploads s →
  (∃ fault,
     up_save env = Some fault ∧
     fs (final (upload_to_gofile json_dumps local_path file_path env s)) !! LEDGER_FILE
     = match fault with
       | SaveOpenFails => fs s !! LEDGER_FILE
       | SaveWriteFails written =>
           Some (substring 0 written
                   (json_dumps (JList (successful_uploads
                      (final (upload_to_gofile json_dumps local_path file_path env s))))))
       end) ∨
  (up_save env = None ∧
   in_sync json_dumps (final (upload_to_gofile json_dumps local_path file_path env s)) ∧
   ∃ line e, report_line line = true ∧ out line = Some e).
Proof.
  unfold upload_to_gofile.
  destruct (get_best_server_any (up_servers env) s)
    as (v0 & t0 & Hserver & _).
  unfold post_and_record, save_ledger. unfold_monad. rewrite Hserver.
  clear Hserver. destruct v0 as [server|e0]; [| done]. cbn.
  destruct (fs s !! local_path) as [content|]; cbn.
  2: by repeat (split_scrutinee; cbn).
  destruct (up_open_fails env); cbn.
  1: by repeat (split_scrutinee; cbn).
  destruct (out (LogUploading server)); cbn.
  1: by repeat (split_scrutinee; cbn).
  destruct (up_post env) as [|r]; cbn.
  1: by repeat (split_scrutinee; cbn).
  destruct (http_error r); cbn.
  1: by repeat (split_scrutinee; cbn).
  destruct (body_json r) as [result|]; cbn.
  2: by repeat (split_scrutinee; cbn).
  destruct (py_get result "status" JNull) as [status|]; cbn.
  2: by repeat (split_scrutinee; cbn).
  destruct (py_eq_str status "ok"); cbn.
  2: by repeat (split_scrutinee; cbn).
  destruct (py_get result "data" (JDict [])) as [data|]; cbn.
  2: by repeat (split_scrutinee; cbn).
  destruct data as [| | | | | |d]; cbn.
  1-6: by repeat (split_scrutinee; cbn).
  destruct (up_save env) as [[|written]|]; cbn.
  - repeat (split_scrutinee; cbn); try done.
    intros _ _. left. by exists SaveOpenFails.
  - repeat (split_scrutinee; cbn); try done.
    intros _ _. left. exists (SaveWriteFails written). split; [done |].
    by rewrite lookup_alter_eq, lookup_insert_eq.
  - repeat (split_scrutinee; cbn); try done.
    all: intros _ _; right; split; [done |].
    all: split; [unfold in_sync; cbn; by rewrite lookup_alter_eq, lookup_insert_eq |].
    all: match goal with
         | H : out ?line = Some ?e |- _ =>
             exists line, e; split; [reflexivity | exact H]
         end.
Qed.

(** What [get_file_list] does on any console: one request, no file is
    opened, the state is untouched. *)
Lemma get_file_list_any sp rp s :
  ∃ v t,
    get_file_list sp rp s = Run v s t ∧
    (∀ opened, open_files t opened = Some opened) ∧
    attempts t = [].
Proof.
  unfold get_file_list. unfold_monad. cbn.
  destruct rp as [|r]; cbn.
  2: destruct (status_code r =? 200); cbn.
  2: destruct (body_json r) as [data|]; cbn.
  2: destruct (listing_names data); cbn.
  all: repeat (split_scrutinee; cbn).
  all: by eexists _, _.
Qed.

Lemma keep_alive_any ticks s :
  ∃ v t,
    keep_alive ticks s = Run v s t ∧
    (∀ opened, open_files t opened = Some opened).
Proof.
  induction ticks as [|n (v & t & IH & Hb)]; cbn [keep_alive]; unfold_monad; cbn.
  - destruct (out LogInterrupted); by eexists _, _.
  - rewrite IH. destruct v; by eexists _, _.
Qed.

(** One pass of the loop on any console: the files it opens are closed
    again; when the announcement is written it is the first event and the
    only announcement; and when the line of the loop's handler can be written
    the pass ends normally. *)
Lemma loop_iteration_any index total file_path env s :
  ∃ v s' t,
    loop_iteration json_dumps index total file_path env s = Run v s' t ∧
    (∀ opened, open_files t opened = Some opened) ∧
    (out (LogProcessing index total file_path) = None →
     ∃ t', t = Printed (LogProcessing index total file_path) :: t' ∧
           attempts t' = []) ∧
    ((∀ e, out (LogFileError file_path e) = None) → v = Ok tt).
Proof.
  unfold loop_iteration, process_file. unfold_monad. cbn -[path_truthy Nat.ltb].
  destruct (out (LogProcessing index total file_path)) as [e0|] eqn:Hannounce;
    cbn -[path_truthy Nat.ltb].
  { destruct (out (LogFileError file_path e0)) eqn:Hline; cbn.
    all: eexists _, _, _; split; [reflexivity |].
    all: split; [done |]. all: split; [done |].
    all: intros Hall; first [done | refused Hall]. }
  destruct (download_file_any SOURCE_SPACE file_path (fe_download env) s)
    as (v1 & s1 & t1 & -> & Hq1 & Hb1 & _ & _ & Hpath & _).
  pose proof (quiet_attempts _ Hq1) as Ha1.
  destruct v1 as [[p|]|e1]; cbn -[path_truthy Nat.ltb].
  2, 3: repeat (split_scrutinee; cbn).
  2-4: eexists _, _, _; (split; [reflexivity |]).
  2-4: split; [balance |].
  2-4: split; [intros _; eexists; split; [reflexivity |];
               rewrite ?attempts_app, Ha1; done |].
  2-4: intros Hall; first [done | refused Hall].
  rewrite (Hpath p eq_refl), local_filename_truthy. cbn -[Nat.ltb].
  destruct (upload_to_gofile_any (local_filename file_path) file_path
              (fe_upload env) s1) as (v2 & s2 & t2 & -> & Hq2 & Hb2 & _).
  pose proof (quiet_attempts _ Hq2) as Ha2.
  destruct v2 as [[]|e2]; cbn -[Nat.ltb].
  1: destruct (cleanup_any (local_filename file_path) (fe_remove_fails env) s2)
       as (v3 & s3 & t3 & -> & Hq3 & Hb3 & _);
     pose proof (quiet_attempts _ Hq3) as Ha3;
     destruct v3 as [[]|e3]; cbn -[Nat.ltb].
  all: destruct (index <? total)%nat; cbn.
  all: repeat (split_scrutinee; cbn).
  all: eexists _, _, _; (split; [reflexivity |]).
  all: split; [balance |].
  all: split; [intros _; eexists; split; [reflexivity |];
               rewrite ?attempts_app, ?Ha1, ?Ha2, ?Ha3; done |].
  all: intros Hall; first [done | refused Hall].
Qed.

(** The loop on any console: the files it opens are closed again, also when
    an exception ends it; and when the announcement of every listed file and
    the line of the handler can be written, it runs to its end and announces
    the listed files, each once, in order. *)
Lemma transfer_loop_any total envs files : ∀ index s,
  ∃ v s' t,
    transfer_loop json_dumps total index files envs s = Run v s' t ∧
    (∀ opened, open_files t opened = Some opened) ∧
    ((∀ i f, f ∈ files → out (LogProcessing i total f) = None) →
     (∀ f e, f ∈ files → out (LogFileError f e) = None) →
     v = Ok tt ∧ attempts t = enumerate index files).
Proof.
  induction files as [|file_path rest IH]; intros index s.
  { by eexists _, _, _. }
  cbn [transfer_loop]. unfold mbind, M_bind.
  destruct (loop_iteration_any index total file_path (envs index) s)
    as (v1 & s1 & t1 & -> & Hb1 & Hfirst & Hok).
  destruct (IH (S index) s1) as (v2 & s2 & t2 & Hrest & Hb2 & Hall2).
  destruct v1 as [[]|e1].
  - rewrite Hrest. eexists _, _, _. split; [reflexivity |]. split; [balance |].
    intros Hannounce Herror.
    destruct (Hfirst (Hannounce index file_path (list_elem_of_here _ _)))
      as (t' & -> & Ha).
    destruct Hall2 as [-> Ha2].
    { intros i f Hin. apply Hannounce. by apply list_elem_of_further. }
    { intros f e Hin. apply Herror. by apply list_elem_of_further. }
    split; [done |].
    rewrite attempts_app, Ha2. unfold attempts in *. cbn. by rewrite Ha.
  - eexists _, _, _. split; [reflexivity |]. split; [done |].
    intros _ Herror.
    discriminate (Hok (λ e, Herror file_path e (list_elem_of_here _ _))).
Qed.

(** X26. On a console that writes the announcement of every listed file and
    the line of the loop's handler, an exception of the loop body never ends
    the loop: it runs to its end and announces the listed files, each once,
    in order, whatever else the console refuses and whatever the network and
    the disk do. *)
Theorem every_announced_file_attempted_once total index files envs s :
  (∀ i f, f ∈ files → out (LogProcessing i total f) = None) →
  (∀ f e, f ∈ files → out (LogFileError f e) = None) →
  value (transfer_loop json_dumps total index files envs s) = Ok tt ∧
  attempts (trace (transfer_loop json_dumps total index files envs s)) =
    enumerate index files.
Proof.
  intros Hannounce Herror.
  destruct (transfer_loop_any total envs files index s)
    as (v & s' & t & -> & _ & Hall). by apply Hall.
Qed.

(** X18. Whatever the console, the network and the disk do, every file the
    script has opened has been closed again, the innermost first, when [main]
    ends, also when it ends on an exception. *)
Theorem main_closes_every_file listing envs ticks s :
  open_files (trace (main json_dumps listing envs ticks s)) [] = Some [].
Proof.
  generalize (@nil string).
  unfold main. unfold_monad. cbn -[transfer_loop].
  destruct (out LogStart); cbn -[transfer_loop]; [done |].
  destruct (get_file_list_any SOURCE_SPACE listing s) as (v & t & -> & Hb & _).
  destruct v as [[|f rest]|e]; cbn -[transfer_loop].
  - destruct (out LogNoFiles); cbn; balance.
  - destruct (out (LogFound _)); cbn -[transfer_loop]; [balance |].
    destruct (transfer_loop_any (S (length rest)) envs (f :: rest) 1 s)
      as (v1 & s1 & t1 & -> & Hb1 & _).
    destruct (keep_alive_any ticks s1) as (v2 & t2 & Hkeep & Hb2).
    destruct v1 as [[]|e1]; cbn; [| balance].
    repeat (match goal with
            | |- context [match out ?line with _ => _ end] => destruct (out line)
            end; cbn).
    all: rewrite ?Hkeep; destruct v2; cbn; balance.
  - balance.
Qed.

End Console.

(** ** The theorems at sample inputs *)

Lemma upload_appends_record_witness :
  length (successful_uploads
            (final (upload_to_gofile sample_dumps "./temp_downloads/a.txt"
                      "a.txt" good_upload disk_with_copy))) = 1%nat.
Proof.
  destruct (upload_appends_record sample_dumps "./temp_downloads/a.txt"
              "a.txt" good_upload disk_with_copy)
    as (info & r & result & _ & _ & _ & _ & Hlength & _).
  - vm_compute. reflexivity.
  - exact Hlength.
Defined.

(** The disk is full when the ledger is written. *)
Lemma save_failure_keeps_record_witness :
  value (upload_to_gofile sample_dumps "./temp_downloads/a.txt" "a.txt"
           (UploadEnv NoReply false (json_reply 200 upload_ok)
              (Some (SaveWriteFails 10))) disk_with_copy) = Ok false ∧
  length (successful_uploads
            (final (upload_to_gofile sample_dumps "./temp_downloads/a.txt" "a.txt"
                      (UploadEnv NoReply false (json_reply 200 upload_ok)
                         (Some (SaveWriteFails 10))) disk_with_copy)))
    = 1%nat.
Proof.
  eapply (save_failure_keeps_record sample_dumps "./temp_downloads/a.txt" "a.txt"
            (UploadEnv NoReply false (json_reply 200 upload_ok)
               (Some (SaveWriteFails 10))) disk_with_copy);
    try reflexivity.
  vm_compute. eauto.
Defined.

(** C1 as stated fails for a file in a directory: the record holds the base
    name, not the remote file name the uploader was given. *)
Lemma upload_record_name_counterexample :
  value (upload_to_gofile sample_dumps "./temp_downloads/a.txt"
           "models/a.txt" good_upload disk_with_copy) = Ok true ∧
  (∃ info,
     successful_uploads
       (final (upload_to_gofile sample_dumps "./temp_downloads/a.txt"
                 "models/a.txt" good_upload disk_with_copy)) = [info] ∧
     py_getitem info "file" = Ok (JStr "a.txt")) ∧
  JStr "a.txt" ≠ JStr "models/a.txt".
Proof.
  split; [by vm_compute |]. split; [| done].
  eexists. split; by vm_compute.
Qed.

Lemma local_file_removed_iff_uploaded_witness :
  fs (final (process_file sample_dumps 1 2 "a.txt" good_file s0))
    !! "./temp_downloads/a.txt" = None ∧
  is_Some (fs (final (process_file sample_dumps 1 2 "a.txt" refused_file s0))
             !! "./temp_downloads/a.txt").
Proof.
  split.
  - destruct (local_file_removed_iff_uploaded sample_dumps 1 2 "a.txt"
                good_file s0) as (_ & Hgone & _ & _).
    + vm_compute. reflexivity.
    + apply Hgone; vm_compute; reflexivity.
  - destruct (local_file_removed_iff_uploaded sample_dumps 1 2 "a.txt"
                refused_file s0) as (_ & _ & Hkept & _).
    + vm_compute. reflexivity.
    + apply Hkept. vm_compute. reflexivity.
Defined.

(** The copy of [a.txt] left by a refused upload survives the transfer of
    [b.txt]. *)
Lemma leftover_file_stays_witness :
  is_Some (fs (final (transfer_loop sample_dumps 2 2 ["b.txt"] (λ _, good_file)
                        (final (loop_iteration sample_dumps 1 2 "a.txt"
                                  refused_file s0))))
             !! "./temp_downloads/a.txt").
Proof.
  apply (leftover_file_stays sample_dumps 2 ["b.txt"] (λ _, good_file)
           "./temp_downloads/a.txt" 2%nat).
  - vm_compute. eauto.
  - repeat constructor. vm_compute. discriminate.
Defined.


Lemma main_stops_on_empty_listing_witness :
  final (main sample_dumps (json_reply 200 (listing_of [".gitattributes"]))
           (λ _, good_file) 3 s0) = s0.
Proof.
  destruct (proj1 (main_stops_on_empty_listing sample_dumps)
              (json_reply 200 (listing_of [".gitattributes"]))
              (λ _, good_file) 3%nat s0) as (_ & Hfinal & _).
  - vm_compute. reflexivity.
  - exact Hfinal.
Defined.

(** A stale copy is replaced by the body that arrives. *)
Lemma download_file_stores_body_witness :
  value (download_file SOURCE_SPACE "models/a.txt" good_download
           (State {["./temp_downloads/a.txt" := "stale"]} []))
    = Ok (Some "./temp_downloads/a.txt") ∧
  fs (final (download_file SOURCE_SPACE "models/a.txt" good_download
               (State {["./temp_downloads/a.txt" := "stale"]} [])))
    !! "./temp_downloads/a.txt" = Some "hello".
Proof.
  destruct (download_file_stores_body SOURCE_SPACE "models/a.txt" good_download
              (Response 200 None ["he"; "llo"] false)
              (State {["./temp_downloads/a.txt" := "stale"]} []))
    as (Hvalue & Hfile & _).
  - vm_compute. reflexivity.
  - reflexivity.
  - split; [exact Hvalue | exact Hfile].
Defined.

(** The connection drops after the first chunk. *)
Lemma download_file_broken_stream_witness :
  value (download_file SOURCE_SPACE "a.txt"
           (DownloadEnv false (Reply (Response 200 None ["he"] true)) false) s0)
    = Ok None ∧
  fs (final (download_file SOURCE_SPACE "a.txt"
               (DownloadEnv false (Reply (Response 200 None ["he"] true)) false) s0))
    !! "./temp_downloads/a.txt" = Some "he".
Proof.
  apply (download_file_broken_stream SOURCE_SPACE "a.txt"
           (DownloadEnv false (Reply (Response 200 None ["he"] true)) false)
           (Response 200 None ["he"] true) s0); reflexivity.
Defined.

(** One sibling without [rfilename] hides [a.txt]. *)
Lemma get_file_list_all_or_nothing_witness :
  value (get_file_list SOURCE_SPACE
           (json_reply 200 (JDict [("siblings", JList [sibling "a.txt"; JDict []])]))
           s0) = Ok [].
Proof.
  apply (get_file_list_all_or_nothing SOURCE_SPACE
           (Response 200
              (Some (JDict [("siblings", JList [sibling "a.txt"; JDict []])]))
              [] false)
           (JDict [("siblings", JList [sibling "a.txt"; JDict []])])
           [sibling "a.txt"; JDict []] (JDict []) s0).
  - reflexivity.
  - reflexivity.
  - reflexivity.
  - apply list_elem_of_further, list_elem_of_here.
  - intros n H. vm_compute in H. discriminate H.
Defined.

(** The response carries a folder but neither a page nor a token. *)
Lemma upload_record_fields_witness :
  successful_uploads
    (final (upload_to_gofile sample_dumps "./temp_downloads/a.txt" "models/a.txt"
              (UploadEnv NoReply false
                 (json_reply 200
                    (JDict [("status", JStr "ok");
                            ("data", JDict [("parentFolder", JStr "f1")])]))
                 None)
              disk_with_copy))
  = [JDict [("file", JStr "a.txt"); ("folder_id", JStr "f1");
            ("download_page", JStr "No disponible");
            ("guest_token", JStr "No disponible")]].
Proof.
  destruct (upload_record_fields sample_dumps "./temp_downloads/a.txt" "models/a.txt"
              (UploadEnv NoReply false
                 (json_reply 200
                    (JDict [("status", JStr "ok");
                            ("data", JDict [("parentFolder", JStr "f1")])]))
                 None)
              disk_with_copy)
    as (r & result & d & Hpost & Hbody & Hdata & Hledger).
  - vm_compute. reflexivity.
  - injection Hpost as <-. injection Hbody as <-. injection Hdata as <-.
    exact Hledger.
Defined.

(** Nothing has been downloaded. *)
Lemma upload_without_file_posts_nothing_witness :
  ∃ line,
    upload_to_gofile sample_dumps "./temp_downloads/a.txt" "a.txt" good_upload s0 =
      Run (Ok false) s0
        [HttpGet "https://api.gofile.io/servers"; Printed line;
         Printed (LogUploadError "a.txt" OSError)].
Proof.
  apply upload_without_file_posts_nothing. left. reflexivity.
Defined.

(** The server list cannot be fetched: the file goes to [store1]. *)
Lemma upload_posts_to_selected_server_witness :
  ∃ line rest,
    value (get_best_server NoReply disk_with_copy) = Ok (JStr "store1") ∧
    trace (upload_to_gofile sample_dumps "./temp_downloads/a.txt" "a.txt"
             (UploadEnv NoReply false (json_reply 200 upload_ok) None)
             disk_with_copy) =
      ([HttpGet "https://api.gofile.io/servers"; Printed line;
        FileOpen "./temp_downloads/a.txt" "rb";
        Printed (LogUploading (JStr "store1"));
        HttpPost (JStr "store1") (basename "./temp_downloads/a.txt")
          "./temp_downloads/a.txt"]
       ++ rest)%list ∧
    posts rest = [] ∧
    last rest = Some (FileClose "./temp_downloads/a.txt").
Proof.
  apply (upload_posts_to_selected_server sample_dumps "./temp_downloads/a.txt"
           "a.txt" (UploadEnv NoReply false (json_reply 200 upload_ok) None)
           disk_with_copy).
  - vm_compute. eauto.
  - reflexivity.
Defined.

(** Two files are transferred; the ledger file holds what [/uploads] serves. *)
Lemma uploads_endpoint_matches_file_witness :
  ∃ served,
    get_uploads (final (transfer_loop sample_dumps 2 1 ["a.txt"; "b.txt"]
                          (λ _, good_file) s0)) =
      Run (Ok (JDict [("uploads", JList served)]))
        (final (transfer_loop sample_dumps 2 1 ["a.txt"; "b.txt"]
                  (λ _, good_file) s0)) [] ∧
    ((served = successful_uploads s0 ∧
      fs (final (transfer_loop sample_dumps 2 1 ["a.txt"; "b.txt"]
                   (λ _, good_file) s0)) !! LEDGER_FILE
        = fs s0 !! LEDGER_FILE) ∨
     fs (final (transfer_loop sample_dumps 2 1 ["a.txt"; "b.txt"]
                  (λ _, good_file) s0)) !! LEDGER_FILE
       = Some (sample_dumps (JList served))).
Proof.
  apply (uploads_endpoint_matches_file sample_dumps 2 (λ _, good_file)
           ["a.txt"; "b.txt"] 1%nat s0).
  intros i. reflexivity.
Defined.

(** Of two files, one is accepted and one refused: [main] announces one. *)
Lemma upload_count_is_reported_witness :
  counts (trace (main sample_dumps (json_reply 200 (listing_of ["a.txt"; "b.txt"]))
                   (λ i, if (i =? 1)%nat then refused_file else good_file) 0 s0))
    = [1%nat].
Proof.
  rewrite (upload_count_is_reported sample_dumps
             (json_reply 200 (listing_of ["a.txt"; "b.txt"]))
             (λ i, if (i =? 1)%nat then refused_file else good_file) 0%nat s0
             ["a.txt"; "b.txt"]).
  - vm_compute. reflexivity.
  - reflexivity.
  - intros i. by destruct (i =? 1)%nat.
  - vm_compute. reflexivity.
  - discriminate.
Defined.

(** The temporary directory cannot be created. *)
Lemma failed_download_skips_upload_witness :
  trace (loop_iteration sample_dumps 1 2 "a.txt" broken_file s0) =
    [Printed (LogProcessing 1 2 "a.txt"); Makedirs TEMP_DOWNLOAD_DIR;
     Printed (LogFileError "a.txt" OSError)].
Proof.
  rewrite (failed_download_skips_upload sample_dumps 1 2 "a.txt" broken_file s0).
  - reflexivity.
  - reflexivity.
Defined.

(** The example of the specification: [a] with score 5 and [b] with score 9
    give ["b"]. *)
Lemma get_best_server_selects_witness :
  value (get_best_server (servers_reply [server "a" 5; server "b" 9]) s0)
    = Ok (JStr "b").
Proof.
  destruct (get_best_server_selects reliable
              (servers_reply [server "a" 5; server "b" 9])
              [server "a" 5; server "b" 9] s0)
    as (best & Hbest & Hname & _).
  - apply servers_reply_lists.
  - discriminate.
  - reflexivity.
  - assert (first_best [server "a" 5; server "b" 9] (server "b" 9)) as Hb.
    { exists [server "a" 5], []. repeat split; by repeat constructor. }
    rewrite (first_best_unique _ _ _ Hbest Hb) in Hname.
    apply Hname; reflexivity.
Defined.

(** C5 as stated fails in four ways. The best candidate has an empty name:
    the selector answers ["store1"], which is not that candidate's name. The
    scores do not compare with each other (a string and a number): [max]
    raises and the answer is ["store1"]. A score is NaN, which no score
    exceeds and which exceeds none: the answer is the first candidate in
    either order, so it is not the candidate with the highest score. The
    console cannot write the name of the best candidate: the [print] of
    line 93 raises inside the [try] and the answer is ["store1"]. *)
Lemma get_best_server_counterexample :
  (lists_servers (servers_reply [server "" 9; server "b" 5])
     [server "" 9; server "b" 5] ∧
   first_best [server "" 9; server "b" 5] (server "" 9) ∧
   candidate_name (server "" 9) = JStr "" ∧
   value (get_best_server (servers_reply [server "" 9; server "b" 5]) s0)
     = Ok (JStr "store1") ∧
   JStr "store1" ≠ JStr "") ∧
  value (get_best_server
           (servers_reply
              [JDict [("name", JStr "a"); ("score", JStr "high")]; server "b" 1])
           s0)
    = Ok (JStr "store1") ∧
  (value (get_best_server
            (servers_reply
               [JDict [("name", JStr "a"); ("score", JFloat FNan)]; server "b" 9])
            s0)
     = Ok (JStr "a") ∧
   value (get_best_server
            (servers_reply
               [server "b" 9; JDict [("name", JStr "a"); ("score", JFloat FNan)]])
            s0)
     = Ok (JStr "b")) ∧
  (first_best [server "a" 5; server "b" 9] (server "b" 9) ∧
   value (get_best_server (out := console (shows_server "b"))
            (servers_reply [server "a" 5; server "b" 9]) s0)
     = Ok (JStr "store1") ∧
   JStr "store1" ≠ JStr "b").
Proof.
  split; [| split; [by vm_compute | split; [by split; vm_compute |]]].
  - split; [apply servers_reply_lists |]. split; [| by repeat split].
    exists [], [server "b" 5]. repeat split; by repeat constructor.
  - split; [| by split; vm_compute].
    exists [server "a" 5], []. repeat split; by repeat constructor.
Qed.

(** C7. The claim fails on a console that cannot write the name of a listed
    file: the announcement of line 216 raises inside the [try], the handler
    of line 234 prints the same name and raises in turn, and the exception
    leaves the loop and [main]. The second file is never attempted: nothing
    is requested after the listing. *)
Lemma main_aborts_on_unprintable_name :
  main (out := console (shows_file "a.txt")) sample_dumps
    (json_reply 200 (listing_of ["a.txt"; "b.txt"])) (λ _, good_file) 0 s0
  = Run (Raise ValueError) s0
      [ThreadStart; Printed LogStart;
       HttpGet "https://huggingface.co/api/spaces/littletest/Why";
       Printed (LogFound 2)].
Proof. by vm_compute. Qed.

(** The console cannot write the download page: the upload has been recorded
    and is reported as failed. *)
Lemma upload_to_gofile_returns_bool_witness :
  value (upload_to_gofile (out := console shows_page) sample_dumps
           "./temp_downloads/a.txt" "a.txt" good_upload disk_with_copy)
    = Ok false.
Proof.
  destruct (upload_to_gofile_returns_bool (console shows_page) sample_dumps
              "./temp_downloads/a.txt" "a.txt" good_upload disk_with_copy)
    as [Htrue | Hfalse].
  - intros e. reflexivity.
  - intros e. reflexivity.
  - vm_compute in Htrue. discriminate Htrue.
  - exact Hfalse.
Defined.

(** The console cannot announce the downloaded file: the handler reports the
    error and the result is [None]. *)
Lemma download_file_raises_only_makedirs_witness :
  value (download_file (out := console shows_download)
           SOURCE_SPACE "a.txt" good_download s0) = Ok None.
Proof.
  destruct (download_file_raises_only_makedirs (console shows_download)
              SOURCE_SPACE "a.txt" good_download s0) as (Hraise & _ & _).
  - intros e. reflexivity.
  - destruct (value (download_file (out := console shows_download)
                       SOURCE_SPACE "a.txt" good_download s0))
      as [[path|]|e] eqn:Hvalue.
    + vm_compute in Hvalue. discriminate Hvalue.
    + reflexivity.
    + destruct Hraise as [Hmakedirs _].
      discriminate (Hmakedirs (ex_intro _ e eq_refl)).
Defined.

Lemma failed_upload_leaves_state_witness :
  final (upload_to_gofile sample_dumps "./temp_downloads/a.txt" "a.txt"
           (fe_upload refused_file) disk_with_copy) = disk_with_copy.
Proof.
  apply (failed_upload_leaves_state reliable).
  - vm_compute. reflexivity.
  - reflexivity.
  - intros line _. reflexivity.
Defined.

(** The console cannot write the download page: the upload returns [False],
    and the ledger file holds the ledger with the new record. *)
Lemma unsaved_record_ledger_file_witness :
  in_sync sample_dumps
    (final (upload_to_gofile (out := console shows_page) sample_dumps
              "./temp_downloads/a.txt" "a.txt" good_upload disk_with_copy)).
Proof.
  destruct (unsaved_record_ledger_file (console shows_page) sample_dumps
              "./temp_downloads/a.txt" "a.txt" good_upload disk_with_copy)
    as [(fault & Hfault & _) | (_ & Hsync & _)].
  - vm_compute. reflexivity.
  - vm_compute. discriminate.
  - discriminate Hfault.
  - exact Hsync.
Defined.

(** The disk fills up after ten characters: the old ledger file is gone. *)
Example truncated_ledger_file :
  fs (final (upload_to_gofile sample_dumps "./temp_downloads/a.txt" "a.txt"
               (UploadEnv NoReply false (json_reply 200 upload_ok)
                  (Some (SaveWriteFails 10)))
               (State {["./temp_downloads/a.txt" := "hello";
                        LEDGER_FILE := "[{'file': 'z.txt'}]"]}
                  [JDict [("file", JStr "z.txt")]])))
    !! LEDGER_FILE = Some "[{'file': ".
Proof. by vm_compute. Qed.

(** The console cannot write the download page, so every upload is reported
    as failed; the first directory cannot be made either. Both files are
    attempted. *)
Lemma every_announced_file_attempted_once_witness :
  attempts (trace (transfer_loop (out := console shows_page) sample_dumps 2 1
                     ["a.txt"; "b.txt"]
                     (λ i, if (i =? 1)%nat then broken_file else good_file) s0))
    = [(1%nat, "a.txt"); (2%nat, "b.txt")].
Proof.
  apply (every_announced_file_attempted_once (console shows_page) sample_dumps).
  - intros i f _. reflexivity.
  - intros f e _. reflexivity.
Defined.

(** The run of the specification's end-to-end scenario, event by event. *)
Example main_two_files_trace :
  trace (main sample_dumps
           (json_reply 200 (listing_of ["a.txt"; ".gitattributes"]))
           (λ _, good_file) 1 s0) =
  [ThreadStart; Printed LogStart;
   HttpGet "https://huggingface.co/api/spaces/littletest/Why";
   Printed (LogFound 1); Printed (LogProcessing 1 1 "a.txt");
   Makedirs "./temp_downloads";
   HttpGet "https://huggingface.co/spaces/littletest/Why/resolve/main/a.txt?download=true";
   FileOpen "./temp_downloads/a.txt" "wb"; FileClose "./temp_downloads/a.txt";
   Printed (LogDownloaded "./temp_downloads/a.txt");
   HttpGet "https://api.gofile.io/servers"; Printed (LogUsingServer (JStr "b"));
   FileOpen "./temp_downloads/a.txt" "rb"; Printed (LogUploading (JStr "b"));
   HttpPost (JStr "b") "a.txt" "./temp_downloads/a.txt";
   FileOpen "uploads_info.json" "w"; FileClose "uploads_info.json";
   Printed (LogUploaded "a.txt"); Printed (LogDownloadPage (JStr "http://x/d1"));
   Printed (LogFolderId (JStr "f1")); Printed (LogGuestToken (JStr "t1"));
   FileClose "./temp_downloads/a.txt";
   Printed (LogRemoved "./temp_downloads/a.txt");
   Printed LogCompleted; Printed (LogUploadCount 1); Printed LogLedgerHint;
   Printed LogServing; Printed LogVisit; Printed LogPressCtrlC;
   Sleep 1; Printed LogInterrupted].
Proof. by vm_compute. Qed.

(** A failed [os.makedirs] escapes [download_file] and is caught by the
    loop. *)
Example broken_file_trace :
  trace (loop_iteration sample_dumps 1 2 "a.txt" broken_file s0) =
  [Printed (LogProcessing 1 2 "a.txt"); Makedirs "./temp_downloads";
   Printed (LogFileError "a.txt" OSError)].
Proof. by vm_compute. Qed.

(** A tie goes to the first candidate; an integer and a float compare by
    value; scores that do not compare, or a listing without [siblings], end
    in the fallback, and a name of another type than string is returned as it
    is. *)
Example tie_goes_to_first :
  value (get_best_server (servers_reply [server "a" 9; server "b" 9]) s0)
    = Ok (JStr "a").
Proof. by vm_compute. Qed.

Example float_score_beats_integer :
  value (get_best_server
           (servers_reply
              [server "a" 5;
               JDict [("name", JStr "b"); ("score", JFloat (FFinite (11 # 2)))]])
           s0)
    = Ok (JStr "b").
Proof. by vm_compute. Qed.

Example scores_that_do_not_compare :
  value (get_best_server
           (servers_reply
              [JDict [("name", JStr "a"); ("score", JStr "high")]; server "b" 1])
           s0)
    = Ok (JStr "store1").
Proof. by vm_compute. Qed.

Example name_that_is_a_number :
  value (get_best_server
           (servers_reply [JDict [("name", JInt 7); ("score", JInt 1)]]) s0)
    = Ok (JInt 7).
Proof. by vm_compute. Qed.

Example listing_without_siblings :
  get_file_list "owner/name" (json_reply 200 (JDict [])) s0 =
  Run (Ok []) s0
    [HttpGet "https://huggingface.co/api/spaces/owner/name";
     Printed (LogListError (KeyError "siblings"))].
Proof. by vm_compute. Qed.
